(** * Singularity recipe generation (easybuild/tools/singularity/utilities.py)

    A shallow embedding of [check_bootstrap], [generate_singularity_recipe]
    and [check_singularity], together with the Python string and [os.path]
    primitives they use, followed by the properties of the recipe text, of
    the error paths and of the image build step.

    Python values are modelled as follows: [str] is [string]; a list is a
    [list]; [None]-or-string is [option string]; Python integers are [Z].
    Exceptions are values of [exn]; a statement that can raise and that
    touches the file system, the process table or the terminal is a
    computation in the state-and-error monad [M] over [World]. *)

From Stdlib Require Import String Ascii List ZArith Bool Lia.
Import ListNotations.

Local Open Scope string_scope.
Local Open Scope Z_scope.

(* ================================================================== *)
(** ** Python strings *)

Module PyStr.

(** The line feed written as a backslash escape in the Python source. *)
Definition LF : string := String "010" EmptyString.

(** The double quote character. *)
Definition DQUOTE : string := String "034" EmptyString.

(** [s.split(sep)] for a one-character separator: every occurrence of
    the separator ends a field, so the result has one more field than
    there are separators, and is never empty. *)
Fixpoint split (sep : ascii) (s : string) : list string :=
  match s with
  | EmptyString => [EmptyString]
  | String c s' =>
      if Ascii.eqb c sep then EmptyString :: split sep s'
      else match split sep s' with
           | [] => [String c EmptyString]
           | f :: fs => String c f :: fs
           end
  end.

(** [sep.join(l)]. *)
Definition join (sep : string) (l : list string) : string :=
  String.concat sep l.

(** [len(s)] as a Python integer. *)
Definition len (s : string) : Z := Z.of_nat (String.length s).

(** Scanning helper of [find]: index of the first [c] in [s], counting
    from [i]; -1 when there is none. *)
Fixpoint find_from (c : ascii) (s : string) (i : Z) : Z :=
  match s with
  | EmptyString => -1
  | String a s' => if Ascii.eqb a c then i else find_from c s' (i + 1)
  end.

(** [s.find(c)]. *)
Definition find (c : ascii) (s : string) : Z := find_from c s 0.

(** Scanning helper of [rfind]: [last] is the index of the last
    occurrence seen so far. *)
Fixpoint rfind_from (c : ascii) (s : string) (i last : Z) : Z :=
  match s with
  | EmptyString => last
  | String a s' =>
      rfind_from c s' (i + 1) (if Ascii.eqb a c then i else last)
  end.

(** [s.rfind(c)]: index of the last [c], or -1. *)
Definition rfind (c : ascii) (s : string) : Z := rfind_from c s 0 (-1).

Fixpoint drop (n : nat) (s : string) : string :=
  match n, s with
  | O, _ => s
  | S _, EmptyString => EmptyString
  | S n', String _ s' => drop n' s'
  end.

Fixpoint take (n : nat) (s : string) : string :=
  match n, s with
  | O, _ => EmptyString
  | S _, EmptyString => EmptyString
  | S n', String a s' => String a (take n' s')
  end.

(** A slice bound [i] clamped the way Python does: a negative bound
    counts from the end, and the result stays within [0, len s]. *)
Definition clamp (s : string) (i : Z) : nat :=
  Z.to_nat (Z.min (len s) (if i <? 0 then Z.max 0 (len s + i) else i)).

(** [s[i:]]. *)
Definition slice_from (s : string) (i : Z) : string := drop (clamp s i) s.

(** [s[:j]]. *)
Definition slice_to (s : string) (j : Z) : string := take (clamp s j) s.

(** [s[i:i+1]] for [0 <= i]: the one-character string at [i], or the
    empty string past the end. *)
Definition char_at (s : string) (i : Z) : string :=
  take 1 (slice_from s i).

(** [s.startswith(c)] for a one-character [c]. *)
Definition startswith (c : ascii) (s : string) : bool :=
  match s with
  | String a _ => Ascii.eqb a c
  | EmptyString => false
  end.

(** [s.endswith(c)] for a one-character [c]. *)
Fixpoint endswith (c : ascii) (s : string) : bool :=
  match s with
  | EmptyString => false
  | String a EmptyString => Ascii.eqb a c
  | String _ s' => endswith c s'
  end.

(** Truth value of a string in a condition: empty is false. *)
Definition truthy (s : string) : bool :=
  match s with EmptyString => false | _ => true end.

(** [template % args] for a template whose conversions are all [%s]:
    each [%s] is replaced by the next argument, in order.  (Python
    raises when the numbers of conversions and arguments differ; a
    conversion left without argument is kept as it is here.) *)
Fixpoint format (template : string) (args : list string) : string :=
  match template with
  | String "%" (String "s" rest as tail) =>
      match args with
      | arg :: args' => arg ++ format rest args'
      | [] => String "%" (format tail [])
      end
  | String a rest => String a (format rest args)
  | EmptyString => EmptyString
  end.

(** [template % arg] with a single argument. *)
Definition percent (template arg : string) : string := format template [arg].

(** [sub in s] for strings. *)
Fixpoint contains (sub s : string) : bool :=
  String.prefix sub s
  || match s with
     | EmptyString => false
     | String _ s' => contains sub s'
     end.

(** [x in l] for a list of strings. *)
Definition mem (x : string) (l : list string) : bool :=
  existsb (String.eqb x) l.

End PyStr.

(* ================================================================== *)
(** ** os.path (posixpath) *)

Module OsPath.
Import PyStr.

(** [os.path.join(a, b)]: an absolute [b] replaces [a]; otherwise the
    two are joined with exactly one separator between them, none being
    added when [a] is empty or already ends with one. *)
Definition join (a b : string) : string :=
  if startswith "/" b then b
  else if (negb (truthy a)) || endswith "/" a then a ++ b
  else a ++ "/" ++ b.

(** The loop of [genericpath._splitext] that skips the leading dots of
    the last path component: [n] bounds the number of iterations
    [dotIndex - filenameIndex] still to run. *)
Fixpoint skip_leading_dots (p : string) (filenameIndex dotIndex : Z)
         (n : nat) : string * string :=
  match n with
  | O => (p, EmptyString)
  | S n' =>
      if negb (String.eqb (char_at p filenameIndex) ".")
      then (slice_to p dotIndex, slice_from p dotIndex)
      else skip_leading_dots p (filenameIndex + 1) dotIndex n'
  end.

(** [os.path.splitext(p)]: the extension starts at the last dot of the
    last path component, unless that component has only dots before
    it. *)
Definition splitext (p : string) : string * string :=
  let sepIndex := rfind "/" p in
  let dotIndex := rfind "." p in
  if sepIndex <? dotIndex then
    let filenameIndex := sepIndex + 1 in
    skip_leading_dots p filenameIndex dotIndex
                      (Z.to_nat (dotIndex - filenameIndex))
  else (p, EmptyString).

End OsPath.

(* ================================================================== *)
(** ** Exceptions, results and the world *)

(** The exceptions the module can raise.  [EasyBuildError] keeps the
    message template and the arguments it was constructed with. *)
Inductive exn : Type :=
| EasyBuildError (msg : string) (args : list string)
| NameError (name : string)
| TypeError (msg : string)
| IndexError (msg : string)
| ValueError (msg : string).

(** Modelled from the spec: [EasyBuildError] is defined in
    easybuild/tools/build_log.py; every failure carries a human-readable
    message that names the offending value.  The message is the template
    itself when there are no arguments, and the template formatted with
    the arguments otherwise. *)
Definition error_message (e : exn) : string :=
  match e with
  | EasyBuildError msg args =>
      match args with
      | [] => msg
      | _ => PyStr.format msg args
      end
  | NameError name => "global name '" ++ name ++ "' is not defined"
  | TypeError msg => msg
  | IndexError msg => msg
  | ValueError msg => msg
  end.

Definition is_EasyBuildError (e : exn) : bool :=
  match e with EasyBuildError _ _ => true | _ => false end.

Inductive result (A : Type) : Type :=
| Ok (a : A)
| Raise (e : exn).
Arguments Ok {A} a.
Arguments Raise {A} e.

(** What the module can observe and change outside itself: the working
    directory and the file system (absolute paths of directories, and of
    regular files with their contents), the [singularity] executable
    found on the search path and the text it prints for [--version], and
    the traces of shell commands run with [os.system], of processes
    opened with [subprocess.Popen] and of messages printed. *)
Record World : Type := mkWorld {
  cwd : string;
  dirs : list string;
  files : list (string * string);
  which_singularity : option string;
  singularity_version_output : string;
  system_calls : list string;
  popen_calls : list string;
  messages : list string
}.

(** A relative path is resolved against the working directory.  Paths
    are compared as they are written: "." and "..", repeated separators
    and symbolic links are not resolved. *)
Definition abspath (w : World) (p : string) : string :=
  OsPath.join (cwd w) p.

(** [os.path.isdir(p)]; the empty path names nothing. *)
Definition os_path_isdir (w : World) (p : string) : bool :=
  PyStr.truthy p && PyStr.mem (abspath w p) (dirs w).

(** [os.path.exists(p)]; the empty path names nothing. *)
Definition os_path_exists (w : World) (p : string) : bool :=
  PyStr.truthy p
  && (PyStr.mem (abspath w p) (dirs w)
      || PyStr.mem (abspath w p) (map fst (files w))).

(** Contents of the regular file at [p], the latest write first. *)
Fixpoint lookup_file (a : string) (fs : list (string * string))
  : option string :=
  match fs with
  | [] => None
  | (k, v) :: fs' => if String.eqb a k then Some v else lookup_file a fs'
  end.

Definition read_file (w : World) (p : string) : option string :=
  lookup_file (abspath w p) (files w).

(** ** The state-and-error monad *)

Definition M (A : Type) : Type := World -> result A * World.

Definition ret {A} (a : A) : M A := fun w => (Ok a, w).

Definition raise {A} (e : exn) : M A := fun w => (Raise e, w).

Definition bind {A B} (c : M A) (k : A -> M B) : M B :=
  fun w => match c w with
           | (Ok a, w') => k a w'
           | (Raise e, w') => (Raise e, w')
           end.

Definition lift {A} (r : result A) : M A := fun w => (r, w).

Definition gets {A} (f : World -> A) : M A := fun w => (Ok (f w), w).

Declare Scope py_scope.
Delimit Scope py_scope with py.
Notation "x <- c ;; k" := (bind c (fun x => k))
  (at level 61, c at next level, right associativity) : py_scope.
Notation "' pat <- c ;; k" := (bind c (fun x => match x with pat => k end))
  (at level 61, pat pattern, c at next level, right associativity) : py_scope.
Notation "c ;; k" := (bind c (fun _ => k))
  (at level 61, right associativity) : py_scope.
Local Open Scope py_scope.

(** [print_msg(msg)]. *)
Definition print_msg (msg : string) : M unit :=
  fun w => (Ok tt,
            mkWorld (cwd w) (dirs w) (files w) (which_singularity w)
                    (singularity_version_output w) (system_calls w)
                    (popen_calls w) (messages w ++ [msg])).

(** [os.system(cmd)]: the command is handed to the shell; its exit
    status is returned to the caller, which discards it.  What the
    command does to the file system is outside this model. *)
Definition os_system (cmd : string) : M unit :=
  fun w => (Ok tt,
            mkWorld (cwd w) (dirs w) (files w) (which_singularity w)
                    (singularity_version_output w) (system_calls w ++ [cmd])
                    (popen_calls w) (messages w)).

(** [subprocess.Popen(cmd, ...).communicate()[0]]: the standard output
    of the process. *)
Definition popen_stdout (cmd : string) : M string :=
  fun w => (Ok (singularity_version_output w),
            mkWorld (cwd w) (dirs w) (files w) (which_singularity w)
                    (singularity_version_output w) (system_calls w)
                    (popen_calls w ++ [cmd]) (messages w)).

(** Modelled from the spec: [which] is defined in
    easybuild/tools/filetools.py; it locates an executable on the search
    path and yields nothing when it is absent. *)
Definition which (cmd : string) : M (option string) :=
  gets which_singularity.

(** Modelled from the spec: [change_dir] is defined in
    easybuild/tools/filetools.py; it changes into the target directory
    and fails with a build error when that is not possible. *)
Definition change_dir (path : string) : M unit :=
  fun w =>
    if os_path_isdir w path
    then (Ok tt,
          mkWorld (abspath w path) (dirs w) (files w) (which_singularity w)
                  (singularity_version_output w) (system_calls w)
                  (popen_calls w) (messages w))
    else (Raise (EasyBuildError "Failed to change from %s to %s: %s"
                   [cwd w; path; "No such file or directory"]), w).

(** Modelled from the spec: [write_file] is defined in
    easybuild/tools/filetools.py; the recipe file is written at
    <working directory>/<recipe filename>, replacing what was there. *)
Definition write_file (path txt : string) : M unit :=
  fun w => (Ok tt,
            mkWorld (cwd w) (dirs w) ((abspath w path, txt) :: files w)
                    (which_singularity w) (singularity_version_output w)
                    (system_calls w) (popen_calls w) (messages w)).


(* ================================================================== *)
(** ** The data the module reads *)

(** One entry of [osdependencies]: a package name, or a tuple of
    alternative package names. *)
Inductive OsDep : Type :=
| OsStr (pkg : string)
| OsTuple (alternatives : list string).

(** [ec['toolchain']]. *)
Record Toolchain : Type := mkToolchain {
  tc_name : string;
  tc_version : string
}.

(** The easyconfig parameters read from [ordered_ecs[0]['ec']]. *)
Record EasyConfig : Type := mkEasyConfig {
  name : string;
  version : string;
  versionsuffix : string;
  toolchain : Toolchain;
  osdependencies : list OsDep
}.

(** One entry of [ordered_ecs]. *)
Record BuildSpec : Type := mkBuildSpec { ec : EasyConfig }.

(** The command line options the module reads. *)
Record Options : Type := mkOptions { singularity_bootstrap : option string }.

(** The configuration read through [build_option], [singularity_path]
    and [get_module_naming_scheme] of easybuild/tools/config.py, taken
    as a parameter of the functions below. *)
Record Config : Type := mkConfig {
  imagename : option string;
  imageformat : string;
  buildimage : bool;
  singularity_path : string;
  get_module_naming_scheme : string
}.

(* ================================================================== *)
(** ** utilities.py *)

Import PyStr.

Definition DOCKER : string := "docker".
Definition LOCALIMAGE : string := "localimage".
Definition SHUB : string := "shub".
Definition SINGULARITY_BOOTSTRAP_TYPES : list string := [DOCKER; LOCALIMAGE; SHUB].

(** The message of the format error of [check_bootstrap]. *)
Definition bootstrap_format_error_msg : string :=
  join LF [
    "Invalid Format for --singularity-bootstrap, must be one of the following:";
    "";
    "--singularity-bootstrap localimage:/path/to/image";
    "--singularity-bootstrap shub:<image>:<tag>";
    "--singularity-bootstrap docker:<image>:<tag>"
  ].

(** [check_bootstrap(singularity_bootstrap)]: sanity check for the
    --singularity-bootstrap option.  An unset option ([None]) and the
    empty string are both false in the first condition. *)
Definition check_bootstrap (singularity_bootstrap : option string)
  : result (string * list string) :=
  match singularity_bootstrap with
  | Some (String c s as sb) =>
      let bootstrap_specs := split ":" sb in
      if (3 <? Z.of_nat (length bootstrap_specs))
         || (Z.of_nat (length bootstrap_specs) <=? 1)
      then Raise (EasyBuildError bootstrap_format_error_msg [])
      else
        let bootstrap_type := hd EmptyString bootstrap_specs in
        if negb (mem bootstrap_type SINGULARITY_BOOTSTRAP_TYPES)
        then Raise (EasyBuildError
                      (percent "bootstrap type must be one of %s"
                               (join ", " SINGULARITY_BOOTSTRAP_TYPES)) [])
        else Ok (bootstrap_type, bootstrap_specs)
  | _ => Raise (EasyBuildError "--singularity-bootstrap must be specified" [])
  end.

(** The variables bound by the branch taken at lines 111-129 of
    [generate_singularity_recipe]: [bootstrap_imagepath] for a local
    image, [bootstrap_image] and [image_tag] otherwise. *)
Inductive BootstrapSource : Type :=
| FromLocal (bootstrap_imagepath : string)
| FromHub (bootstrap_image : string) (image_tag : option string).

(** [l[i]] on a list of strings known to be long enough. *)
Definition item (l : list string) (i : nat) : string := nth i l EmptyString.

(** Lines 111-129: validation of the bootstrap source.  The name raised
    on a bad image extension is not bound in the module, so evaluating
    it raises [NameError]. *)
Definition check_bootstrap_source (bootstrap_type : string)
           (bootstrap_list : list string) : M BootstrapSource :=
  if String.eqb bootstrap_type LOCALIMAGE then
    let bootstrap_imagepath := item bootstrap_list 1 in
    e <- gets (fun w => os_path_exists w bootstrap_imagepath) ;;
    if e : bool then
      let image_ext := snd (OsPath.splitext bootstrap_imagepath) in
      if String.eqb image_ext ".img" || String.eqb image_ext ".simg"
      then ret (FromLocal bootstrap_imagepath)
      else raise (NameError "EaasyBuildError")
    else raise (EasyBuildError
                  "Singularity base image at specified path does not exist: %s"
                  [bootstrap_imagepath])
  else
    let bootstrap_image := item bootstrap_list 1 in
    let image_tag :=
      if (Z.of_nat (length bootstrap_list) =? 3)
      then Some (item bootstrap_list 2) else None in
    ret (FromHub bootstrap_image image_tag).

(** Lines 133-144: the bootstrap section. *)
Definition bootstrap_section (bootstrap_type : string) (src : BootstrapSource)
  : string :=
  match src with
  | FromLocal bootstrap_imagepath =>
      let bootstrap_content := "Bootstrap: " ++ bootstrap_type ++ LF in
      bootstrap_content ++ "From: " ++ bootstrap_imagepath ++ LF
  | FromHub bootstrap_image image_tag =>
      let bootstrap_content := "BootStrap: " ++ bootstrap_type ++ LF in
      match image_tag with
      | None => bootstrap_content ++ "From: " ++ bootstrap_image ++ LF
      | Some tag =>
          bootstrap_content ++ "From: " ++ bootstrap_image ++ ":" ++ tag ++ LF
      end
  end.

(** ["yum install -y " + os_package] for an entry of [osdependencies]:
    concatenating a string and a tuple is a type error. *)
Definition yum_install (os_package : OsDep) : result string :=
  match os_package with
  | OsStr pkg => Ok ("yum install -y " ++ pkg)
  | OsTuple _ => Raise (TypeError "cannot concatenate 'str' and 'tuple' objects")
  end.

(** Lines 158-159: the loop over a flat list of package names. *)
Fixpoint install_each (osdeps : list OsDep) (post_content : string)
  : result string :=
  match osdeps with
  | [] => Ok post_content
  | os_package :: rest =>
      match yum_install os_package with
      | Ok cmd => install_each rest (post_content ++ cmd ++ " || true " ++ LF)
      | Raise e => Raise e
      end
  end.

(** Lines 162-163: the loop over the alternatives of the first entry. *)
Definition install_alternatives (alternatives : list string)
           (post_content : string) : string :=
  fold_left (fun post_content os_package =>
               post_content ++ "yum install -y " ++ os_package
                            ++ " || true " ++ LF)
            alternatives post_content.

(** Lines 154-163: the package installation lines. *)
Definition install_osdeps (osdeps : list OsDep) (post_content : string)
  : result string :=
  match osdeps with
  | [] => Ok post_content
  | OsStr _ :: _ => install_each osdeps post_content
  | OsTuple alternatives :: _ =>
      Ok (install_alternatives alternatives post_content)
  end.

(** The flags of the build invocation line. *)
Definition eb_flags : string :=
  " --robot --installpath=/app/ --prefix=/scratch --tmpdir=/scratch/tmp  --module-naming-scheme=".

(** The cleanup command. *)
Definition cleanup_cmd : string :=
  "rm -rf /scratch/tmp/* /scratch/build /scratch/sources /scratch/ebfiles_repo".

(** The local variables of [generate_singularity_recipe] that hold the
    text of the recipe and the derived file names. *)
Record RecipeText : Type := mkRecipeText {
  bootstrap_content : string;
  post_content : string;
  runscript_content : string;
  environment_content : string;
  label_content : string;
  easyconfig : string;
  ebfile : string;
  def_file : string;
  content : string
}.

(** Lines 131-224 of [generate_singularity_recipe]: the text of the
    definition file, from the validated bootstrap source, the module
    naming scheme and the easyconfig parameters. *)
Definition recipe_text (module_scheme bootstrap_type : string)
           (src : BootstrapSource) (e : EasyConfig) : result RecipeText :=
  let appname := name e in
  let appver := version e in
  let appversuffix := versionsuffix e in
  let tcname := tc_name (toolchain e) in
  let tcver := tc_version (toolchain e) in
  let osdeps := osdependencies e in
  let bootstrap_content := bootstrap_section bootstrap_type src in
  let modulepath :=
    if String.eqb module_scheme "HierarchicalMNS"
    then "/app/modules/all/Core" else "/app/modules/all/" in
  let post_content := LF ++ "%post" ++ LF in
  match install_osdeps osdeps post_content with
  | Raise err => Raise err
  | Ok post_content =>
      let post_content := post_content ++ "pip install -U easybuild " ++ LF in
      let post_content := post_content ++ "su - easybuild " ++ LF in
      let environment_content :=
        LF ++ "%environment" ++ LF ++ "source /etc/profile" ++ LF in
      let '(easyconfig, def_file, ebfile, post_content, environment_content) :=
        if negb (String.eqb tcname "dummy") then
          let easyconfig :=
            appname ++ "-" ++ appver ++ "-" ++ tcname ++ "-" ++ tcver
                    ++ appversuffix ++ ".eb" in
          let def_file :=
            "Singularity." ++ appname ++ "-" ++ appver ++ "-" ++ tcname
                           ++ "-" ++ tcver ++ appversuffix in
          let ebfile := fst (OsPath.splitext easyconfig) ++ ".eb" in
          let post_content :=
            post_content ++ "eb " ++ ebfile ++ eb_flags ++ module_scheme ++ LF in
          if String.eqb module_scheme "HierarchicalMNS" then
            let environment_content :=
              environment_content ++ "module use " ++ modulepath ++ LF in
            let environment_content :=
              environment_content ++ "module load "
                                  ++ OsPath.join tcname tcver ++ LF in
            let environment_content :=
              environment_content ++ "module load "
                ++ OsPath.join appname (appver ++ appversuffix) ++ LF in
            (easyconfig, def_file, ebfile, post_content, environment_content)
          else
            let environment_content :=
              environment_content ++ "module use " ++ modulepath ++ LF in
            let environment_content :=
              environment_content ++ "module load "
                ++ OsPath.join appname
                     (appver ++ "-" ++ tcname ++ "-" ++ tcver ++ appversuffix)
                ++ LF in
            (easyconfig, def_file, ebfile, post_content, environment_content)
        else
          let easyconfig := appname ++ "-" ++ appver ++ appversuffix ++ ".eb" in
          let def_file := "Singularity." ++ appname ++ "-" ++ appver
                                         ++ appversuffix in
          let ebfile := fst (OsPath.splitext easyconfig) ++ ".eb" in
          let post_content :=
            post_content ++ "eb " ++ ebfile ++ eb_flags ++ module_scheme ++ LF in
          let environment_content :=
            environment_content ++ "module use " ++ modulepath ++ LF in
          let environment_content :=
            environment_content ++ "module load "
              ++ OsPath.join appname (appver ++ appversuffix) ++ LF in
          (easyconfig, def_file, ebfile, post_content, environment_content) in
      let post_content := post_content ++ join LF ["exit"; cleanup_cmd] in
      let runscript_content :=
        join LF ["%runscript"; "eval " ++ DQUOTE ++ "$@" ++ DQUOTE] in
      let label_content := LF ++ "%labels " ++ LF in
      let content :=
        bootstrap_content ++ post_content ++ runscript_content
                          ++ environment_content ++ label_content in
      Ok (mkRecipeText bootstrap_content post_content runscript_content
                       environment_content label_content
                       easyconfig ebfile def_file content)
  end.

(** Lines 233-241: the name of the container before the suffix of the
    image format is added. *)
Definition container_base (image_name : option string) (def_file : string)
  : string :=
  match image_name with
  | Some image_name => image_name
  | None =>
      let pos := find "." def_file in
      slice_from def_file (pos + 1)
  end.

(** The common shape of lines 246-250, 256-260 and 265-269: refuse an
    existing image, else run the builder. *)
Definition build_unless_exists (singularity_writepath container_name cmd : string)
  : M unit :=
  e <- gets (fun w => os_path_exists w container_name) ;;
  if e : bool then
    let errmsg := "Image already exist at "
                    ++ OsPath.join singularity_writepath container_name in
    raise (EasyBuildError errmsg [])
  else os_system cmd.

(** Lines 231-269: the image build. *)
Definition build_container (image_name : option string) (image_format : string)
           (singularity_writepath def_file : string) : M unit :=
  let container_name := container_base image_name def_file in
  if String.eqb image_format "squashfs" then
    let container_name := container_name ++ ".simg" in
    build_unless_exists singularity_writepath container_name
      ("sudo singularity build " ++ container_name ++ " " ++ def_file)
  else if String.eqb image_format "ext3" then
    let container_name := container_name ++ ".img" in
    build_unless_exists singularity_writepath container_name
      ("sudo singularity build --writable " ++ container_name ++ " " ++ def_file)
  else if String.eqb image_format "sandbox" then
    build_unless_exists singularity_writepath container_name
      ("sudo singularity build --sandbox " ++ container_name ++ " " ++ def_file)
  else ret tt.

(** [ordered_ecs[0]]. *)
Definition first_spec (ordered_ecs : list BuildSpec) : result BuildSpec :=
  match ordered_ecs with
  | spec :: _ => Ok spec
  | [] => Raise (IndexError "list index out of range")
  end.

(** Lines 80-228 of [generate_singularity_recipe]: validation of the
    recipe directory and of the bootstrap option, composition of the
    text, and writing of the definition file.  The result holds the
    local variables [singularity_writepath] and [def_file] that the
    image build goes on to use. *)
Definition write_definition_file (cfg : Config)
           (ordered_ecs : list BuildSpec) (options : Options)
  : M (string * string) :=
  let sing_path := singularity_path cfg in
  valid <- gets (fun w => os_path_exists w sing_path && os_path_isdir w sing_path) ;;
  singularity_writepath <-
    (if valid : bool then ret (singularity_path cfg)
     else
       let msg := "Invalid path: " ++ sing_path
                    ++ " please specify a valid directory path" in
       raise (EasyBuildError msg [])) ;;
  '(bootstrap_type, bootstrap_list) <-
    lift (check_bootstrap (singularity_bootstrap options)) ;;
  spec <- lift (first_spec ordered_ecs) ;;
  src <- check_bootstrap_source bootstrap_type bootstrap_list ;;
  let module_scheme := get_module_naming_scheme cfg in
  r <- lift (recipe_text module_scheme bootstrap_type src (ec spec)) ;;
  change_dir singularity_writepath ;;
  write_file (def_file r) (content r) ;;
  print_msg (percent "Writing Singularity Definition File: %s"
                     (OsPath.join singularity_writepath (def_file r))) ;;
  ret (singularity_writepath, def_file r).

(** [generate_singularity_recipe(ordered_ecs, options)]: writes the
    definition file and, when asked to, builds the image. *)
Definition generate_singularity_recipe (cfg : Config)
           (ordered_ecs : list BuildSpec) (options : Options) : M unit :=
  let image_name := imagename cfg in
  let image_format := imageformat cfg in
  let build_image := buildimage cfg in
  '(singularity_writepath, def_file) <-
    write_definition_file cfg ordered_ecs options ;;
  if build_image
  then build_container image_name image_format singularity_writepath def_file
  else ret tt.

(** The value of [singularity_version]: the integer it is initialised
    with, or the text cut from the output of the tool. *)
Inductive PyVersion : Type :=
| VInt (z : Z)
| VStr (s : string).

Section CheckSingularity.

(** [float(v) < 2.4], which raises [ValueError] on text that is not a
    number.  The conversion belongs to the Python runtime and is left
    abstract. *)
Variable float_lt_minimum : PyVersion -> result bool.

(** Lines 287-290, the statements that follow the [raise] of the
    [elif] branch at the indentation of its body. *)
Definition version_check (singularity_version : PyVersion) : M unit :=
  below <- lift (float_lt_minimum singularity_version) ;;
  if below : bool
  then raise (EasyBuildError
                "Please upgrade singularity instance to version 2.4 or higher" [])
  else
    match singularity_version with
    | VStr s => print_msg (percent "Singularity version '%s' is 2.4 or higher ... OK" s)
    | VInt _ => print_msg "Singularity version '0' is 2.4 or higher ... OK"
    end.

(** [check_singularity(ordered_ecs, options)]. *)
Definition check_singularity (cfg : Config) (ordered_ecs : list BuildSpec)
           (options : Options) : M unit :=
  path_to_singularity_cmd <- which "singularity" ;;
  let singularity_version := VInt 0 in
  singularity_version <-
    (match path_to_singularity_cmd with
     | Some (String _ _ as path) =>
         print_msg (percent "Singularity tool found at %s" path) ;;
         out <- popen_stdout "singularity --version" ;;
         ret (VStr (hd EmptyString (split "-" out)))
     | _ =>
         if buildimage cfg then
           @raise unit (EasyBuildError "Singularity not found in your system" []) ;;
           version_check singularity_version ;;
           ret singularity_version
         else ret singularity_version
     end) ;;
  generate_singularity_recipe cfg ordered_ecs options.

End CheckSingularity.

(* ================================================================== *)
(** ** distutils.version.LooseVersion, as used by toolchains/gompi.py *)

Module LooseVersion.

(** A component of a parsed version: an integer or a piece of text. *)
Inductive component : Type :=
| CInt (n : Z)
| CStr (s : string).

(** What the alternatives of [component_re] tell apart: a digit, a
    lowercase letter, a dot, anything else. *)
Inductive char_class : Type :=
| Digits
| Letters
| Dot
| Other.

Definition is_digit (c : ascii) : bool :=
  (48 <=? nat_of_ascii c)%nat && (nat_of_ascii c <=? 57)%nat.

Definition is_lower (c : ascii) : bool :=
  (97 <=? nat_of_ascii c)%nat && (nat_of_ascii c <=? 122)%nat.

Definition classify (c : ascii) : char_class :=
  if is_digit c then Digits
  else if is_lower c then Letters
  else if Ascii.eqb c "." then Dot
  else Other.

(** Two adjacent characters belong to one element of the split: digits
    and letters match greedily, the text between two matches is kept
    whole, and every dot is a match of its own. *)
Definition same_run (k k' : char_class) : bool :=
  match k, k' with
  | Digits, Digits => true
  | Letters, Letters => true
  | Other, Other => true
  | _, _ => false
  end.

(** [component_re.split(vstring)] without its empty elements: the
    maximal runs of digits, of lowercase letters and of other text, and
    the single dots, from left to right. *)
Fixpoint runs (vstring : string) : list (char_class * string) :=
  match vstring with
  | EmptyString => []
  | String c rest =>
      let k := classify c in
      match runs rest with
      | (k', t) :: more =>
          if same_run k k' then (k, String c t) :: more
          else (k, String c EmptyString) :: (k', t) :: more
      | [] => [(k, String c EmptyString)]
      end
  end.

(** [int(obj)] for a run of decimal digits. *)
Fixpoint int_of_digits (obj : string) (acc : Z) : Z :=
  match obj with
  | EmptyString => acc
  | String c rest =>
      int_of_digits rest (10 * acc + (Z.of_nat (nat_of_ascii c) - 48))
  end.

(** The comprehension and the loop of [parse]: dots are dropped, runs of
    digits become integers, every other element stays text. *)
Fixpoint components (rs : list (char_class * string)) : list component :=
  match rs with
  | [] => []
  | (Dot, _) :: more => components more
  | (Digits, x) :: more => CInt (int_of_digits x 0) :: components more
  | (_, x) :: more => CStr x :: components more
  end.

(** [LooseVersion(vstring).version]. *)
Definition parse (vstring : string) : list component :=
  components (runs vstring).

(** [a == b] on components: an integer never equals a text. *)
Definition component_eqb (a b : component) : bool :=
  match a, b with
  | CInt n, CInt m => n =? m
  | CStr s, CStr t => String.eqb s t
  | _, _ => false
  end.

(** The order of two components that differ.  An integer and a text are
    ordered by Python 2 (the integer first) and refused by Python 3. *)
Definition cmp_component (py3 : bool) (a b : component) : result comparison :=
  match a, b with
  | CInt n, CInt m => Ok (n ?= m)
  | CStr s, CStr t => Ok (String.compare s t)
  | CInt _, CStr _ =>
      if py3
      then Raise (TypeError "'<' not supported between instances of 'int' and 'str'")
      else Ok Lt
  | CStr _, CInt _ =>
      if py3
      then Raise (TypeError "'<' not supported between instances of 'str' and 'int'")
      else Ok Gt
  end.

(** The order of two lists: decided by the first position where they
    differ, a proper prefix coming first. *)
Fixpoint cmp_list (py3 : bool) (l1 l2 : list component) : result comparison :=
  match l1, l2 with
  | [], [] => Ok Eq
  | [], _ :: _ => Ok Lt
  | _ :: _, [] => Ok Gt
  | a :: l1', b :: l2' =>
      if component_eqb a b then cmp_list py3 l1' l2'
      else cmp_component py3 a b
  end.

(** [LooseVersion(v1) < LooseVersion(v2)]. *)
Definition lt (py3 : bool) (v1 v2 : string) : result bool :=
  match cmp_list py3 (parse v1) (parse v2) with
  | Ok Lt => Ok true
  | Ok _ => Ok false
  | Raise e => Raise e
  end.

End LooseVersion.

(* ================================================================== *)
(** ** toolchains/gompi.py *)

Module Gompi.

Definition NAME : string := "gompi".

(** [s.replace(old, new)] for a one-character [old]. *)
Fixpoint replace (old : ascii) (new : string) (s : string) : string :=
  match s with
  | EmptyString => EmptyString
  | String c rest =>
      if Ascii.eqb c old then new ++ replace old new rest
      else String c (replace old new rest)
  end.

(** [re.match('^[0-9]', version)] as a truth value. *)
Definition re_match_leading_digit (version : string) : bool :=
  match version with
  | String c _ => LooseVersion.is_digit c
  | EmptyString => false
  end.

(** [Gompi.is_deprecated(self)], as a function of [self.version].  The
    flag [py3] selects the interpreter the comparison runs on. *)
Definition is_deprecated (py3 : bool) (self_version : string) : result bool :=
  let version := replace "b" ".07" (replace "a" ".01" self_version) in
  if re_match_leading_digit version then
    match LooseVersion.lt py3 version "2000" with
    | Ok true => let deprecated := true in Ok deprecated
    | Ok false => let deprecated := false in Ok deprecated
    | Raise e => Raise e
    end
  else
    let deprecated := false in Ok deprecated.

End Gompi.

(* ================================================================== *)
(** ** Vocabulary of the properties and the inputs of the scenarios *)

(** The message lists the three accepted forms of the option. *)
Definition enumerates_accepted_forms (msg : string) : bool :=
  contains "localimage:/path/to/image" msg
  && contains "shub:<image>:<tag>" msg
  && contains "docker:<image>:<tag>" msg.

(** The world after the definition file was written: the working
    directory is the recipe directory, the file holds the text, and one
    message was printed. *)
Definition world_after_write (w : World) (writepath : string) (r : RecipeText)
  : World :=
  mkWorld (abspath w writepath) (dirs w)
          ((OsPath.join (abspath w writepath) (def_file r), content r) :: files w)
          (which_singularity w) (singularity_version_output w)
          (system_calls w) (popen_calls w)
          (messages w ++ [percent "Writing Singularity Definition File: %s"
                                  (OsPath.join writepath (def_file r))]).

(** The error of the version comparison at line 288. *)
Definition unsupported_version_error : exn :=
  EasyBuildError "Please upgrade singularity instance to version 2.4 or higher" [].

(** The world after the tool was found and asked for its version. *)
Definition world_after_version_query (w : World) (path : string) : World :=
  mkWorld (cwd w) (dirs w) (files w) (which_singularity w)
          (singularity_version_output w) (system_calls w)
          (popen_calls w ++ ["singularity --version"])
          (messages w ++ [percent "Singularity tool found at %s" path]).

(** The fault-tolerant install line of one package. *)
Definition install_line (os_package : string) : string :=
  "yum install -y " ++ os_package ++ " || true " ++ LF.

(** The install lines of a list of packages, one after the other. *)
Definition install_lines (packages : list string) : string :=
  String.concat "" (map install_line packages).

(** The package names of a list whose entries are all strings. *)
Fixpoint all_strings (osdeps : list OsDep) : option (list string) :=
  match osdeps with
  | [] => Some []
  | OsStr pkg :: rest =>
      match all_strings rest with
      | Some names => Some (pkg :: names)
      | None => None
      end
  | OsTuple _ :: _ => None
  end.

(** The module tree used by the environment section. *)
Definition modulepath_of (module_scheme : string) : string :=
  if String.eqb module_scheme "HierarchicalMNS"
  then "/app/modules/all/Core" else "/app/modules/all/".

(** The stem of the derived file names. *)
Definition name_stem (e : EasyConfig) : string :=
  if negb (String.eqb (tc_name (toolchain e)) "dummy")
  then name e ++ "-" ++ version e ++ "-" ++ tc_name (toolchain e) ++ "-"
              ++ tc_version (toolchain e) ++ versionsuffix e
  else name e ++ "-" ++ version e ++ versionsuffix e.

(** The module load lines of the environment section. *)
Definition load_lines (module_scheme : string) (e : EasyConfig) : string :=
  if negb (String.eqb (tc_name (toolchain e)) "dummy") then
    if String.eqb module_scheme "HierarchicalMNS" then
      "module load " ++ OsPath.join (tc_name (toolchain e)) (tc_version (toolchain e))
        ++ LF ++ "module load "
        ++ OsPath.join (name e) (version e ++ versionsuffix e) ++ LF
    else
      "module load "
        ++ OsPath.join (name e)
             (version e ++ "-" ++ tc_name (toolchain e) ++ "-"
                        ++ tc_version (toolchain e) ++ versionsuffix e)
        ++ LF
  else
    "module load " ++ OsPath.join (name e) (version e ++ versionsuffix e) ++ LF.

(** The string consists of dots only. *)
Fixpoint only_dots (s : string) : bool :=
  match s with
  | EmptyString => true
  | String c s' => Ascii.eqb c "." && only_dots s'
  end.

(** The last path component: what follows the last separator. *)
Definition basename (p : string) : string :=
  slice_from p (rfind "/" p + 1).

(** The module load lines of a document: its lines that start with the
    load command. *)
Definition module_load_lines (doc : string) : list string :=
  filter (String.prefix "module load ") (split "010" doc).

(** The section header lines of a definition file: its lines that start
    with a percent sign. *)
Definition header_lines (doc : string) : list string :=
  filter (startswith "%") (split "010" doc).

(** The easyconfig of the first scenario: bzip2 1.0.6, no toolchain. *)
Definition bzip2_ec : EasyConfig :=
  mkEasyConfig "bzip2" "1.0.6" "" (mkToolchain "dummy" "dummy") [].

(** The easyconfig of the second scenario: R 3.3.1 with intel 2017a. *)
Definition R_ec : EasyConfig :=
  mkEasyConfig "R" "3.3.1" "" (mkToolchain "intel" "2017a")
               [OsStr "libibverbs-devel"; OsStr "rdma-core-devel"].

(** A host with a recipe directory, a tar archive at /x.tar, an image
    built earlier, and a singularity 2.3 on the search path. *)
Definition example_world : World :=
  mkWorld "/home/user"
          ["/home/user"; "/home/user/recipes"]
          [("/x.tar", ""); ("/home/user/recipes/bzip2-1.0.6.simg", "")]
          (Some "/usr/bin/singularity")
          ("2.3-dist" ++ LF)
          [] [] [].

(** Build a squashfs image in the recipe directory. *)
Definition cfg_squashfs : Config :=
  mkConfig None "squashfs" true "recipes" "EasyBuildMNS".

(** Build an ext3 image in the recipe directory. *)
Definition cfg_ext3 : Config :=
  mkConfig None "ext3" true "recipes" "EasyBuildMNS".

(** A conversion that finds every version below the minimum. *)
Definition always_below (v : PyVersion) : result bool := Ok true.

Definition docker_ubuntu : Options := mkOptions (Some "docker:ubuntu:16.04").

(** The longest prefix of a string that consists of decimal digits. *)
Fixpoint digit_prefix (s : string) : string :=
  match s with
  | String c rest =>
      if LooseVersion.is_digit c then String c (digit_prefix rest)
      else EmptyString
  | EmptyString => EmptyString
  end.

(** The number a version string starts with (0 when it starts with no
    digit). *)
Definition leading_number (version : string) : Z :=
  LooseVersion.int_of_digits (digit_prefix version) 0.

(** The errors raised by the checks that come before the definition
    file is written. *)
Inductive validation_error (cfg : Config) : exn -> Prop :=
| err_invalid_path :
    validation_error cfg
      (EasyBuildError ("Invalid path: " ++ singularity_path cfg
                         ++ " please specify a valid directory path") [])
| err_bootstrap_unset :
    validation_error cfg
      (EasyBuildError "--singularity-bootstrap must be specified" [])
| err_bootstrap_format :
    validation_error cfg (EasyBuildError bootstrap_format_error_msg [])
| err_bootstrap_type :
    validation_error cfg
      (EasyBuildError "bootstrap type must be one of docker, localimage, shub" [])
| err_empty_plan :
    validation_error cfg (IndexError "list index out of range")
| err_image_extension :
    validation_error cfg (NameError "EaasyBuildError")
| err_image_missing (path : string) :
    validation_error cfg
      (EasyBuildError
         "Singularity base image at specified path does not exist: %s" [path])
| err_osdependencies :
    validation_error cfg
      (TypeError "cannot concatenate 'str' and 'tuple' objects").

(** The world after one more shell command. *)
Definition world_after_command (w : World) (cmd : string) : World :=
  mkWorld (cwd w) (dirs w) (files w) (which_singularity w)
          (singularity_version_output w) (system_calls w ++ [cmd])
          (popen_calls w) (messages w).

(** Build a squashfs image named myimage. *)
Definition cfg_named : Config :=
  mkConfig (Some "myimage") "squashfs" true "recipes" "EasyBuildMNS".

(** An easyconfig whose package list starts with a tuple of
    alternatives, followed by one more package. *)
Definition openmpi_ec : EasyConfig :=
  mkEasyConfig "OpenMPI" "2.1.1" "" (mkToolchain "GCC" "6.4.0")
               [OsTuple ["libibverbs-dev"; "libibverbs-devel"; "rdma-core-devel"];
                OsStr "zlib-devel"].

(** A host without singularity, with a base image at
    /images/centos.simg and an empty recipe directory. *)
Definition local_image_world : World :=
  mkWorld "/home/user"
          ["/home/user"; "/home/user/recipes"; "/images"]
          [("/images/centos.simg", "")]
          None "" [] [] [].

(** Write the recipe only, under the hierarchical scheme. *)
Definition cfg_recipe_only : Config :=
  mkConfig None "squashfs" false "recipes" "HierarchicalMNS".

(** A recipe directory that does not exist. *)
Definition cfg_bad_dir : Config :=
  mkConfig None "squashfs" true "nowhere" "EasyBuildMNS".

(** An image format that is none of the three. *)
Definition cfg_unknown_format : Config :=
  mkConfig None "tar" true "recipes" "EasyBuildMNS".

(** A sandbox named like the definition file of bzip2. *)
Definition cfg_sandbox_named : Config :=
  mkConfig (Some "Singularity.bzip2-1.0.6") "sandbox" true "recipes"
           "EasyBuildMNS".

(** A local image given with a third field. *)
Definition local_centos : Options :=
  mkOptions (Some "localimage:/images/centos.simg:ignored").

(* ================================================================== *)
(** * Properties *)

(** ** Strings *)

Section StringFacts.

Lemma append_assoc (a b c : string) : (a ++ b) ++ c = a ++ (b ++ c).
Proof.
  induction a as [|x a IH]; simpl; [reflexivity | now rewrite IH].
Qed.

Lemma append_nil_r (a : string) : a ++ "" = a.
Proof.
  induction a as [|x a IH]; simpl; [reflexivity | now rewrite IH].
Qed.

Lemma length_append (a b : string) :
  String.length (a ++ b) = (String.length a + String.length b)%nat.
Proof.
  induction a as [|x a IH]; simpl; [reflexivity | now rewrite IH].
Qed.

Lemma prefix_append (a b : string) : String.prefix a (a ++ b) = true.
Proof.
  induction a as [|x a IH]; simpl.
  - now destruct b.
  - destruct (Ascii.ascii_dec x x) as [_|n]; [exact IH | now elim n].
Qed.

Lemma prefix_append2 (a b c : string) :
  String.prefix (a ++ b) (a ++ b ++ c) = true.
Proof. rewrite <- append_assoc. apply prefix_append. Qed.

Lemma prefix_append3 (a b c d : string) :
  String.prefix (a ++ b ++ c) (a ++ b ++ c ++ d) = true.
Proof.
  rewrite <- (append_assoc b c d), <- (append_assoc a (b ++ c) d).
  apply prefix_append.
Qed.

Lemma drop_length_append (a b : string) : drop (String.length a) (a ++ b) = b.
Proof.
  induction a as [|x a IH]; simpl; [reflexivity | exact IH].
Qed.

Lemma take_length_append (a b : string) : take (String.length a) (a ++ b) = a.
Proof.
  induction a as [|x a IH]; simpl; [reflexivity | now rewrite IH].
Qed.

(** Splitting never yields the empty list. *)
Lemma split_not_nil (sep : ascii) (s : string) : split sep s <> [].
Proof.
  destruct s as [|c s]; simpl; [discriminate |].
  destruct (Ascii.eqb c sep); [discriminate |].
  destruct (split sep s); discriminate.
Qed.

Lemma split_length_pos (sep : ascii) (s : string) :
  (1 <= length (split sep s))%nat.
Proof.
  generalize (split_not_nil sep s).
  destruct (split sep s); simpl; [congruence | lia].
Qed.

End StringFacts.

(** ** The monad *)

(** Nothing that follows a [raise] in a sequence is run. *)
Lemma bind_raise {A B} (e : exn) (k : A -> M B) : bind (raise e) k = raise e.
Proof. reflexivity. Qed.

Lemma bind_ret {A B} (a : A) (k : A -> M B) : bind (ret a) k = k a.
Proof. reflexivity. Qed.

(** ** check_bootstrap *)

Lemma mem_In (x : string) (l : list string) : mem x l = true <-> In x l.
Proof.
  unfold mem. rewrite existsb_exists. split.
  - intros [y [Hin Heq]]. apply String.eqb_eq in Heq. now subst.
  - intros Hin. exists x. split; [exact Hin | apply String.eqb_refl].
Qed.

Lemma bootstrap_types_perm (k : string) :
  In k SINGULARITY_BOOTSTRAP_TYPES <-> In k [LOCALIMAGE; SHUB; DOCKER].
Proof.
  unfold SINGULARITY_BOOTSTRAP_TYPES. simpl. tauto.
Qed.

(** The outcome of [check_bootstrap] on a non-empty string, by cases on
    the number of fields and on the first field. *)
Lemma check_bootstrap_cases (s : string) :
  s <> "" ->
  let fields := split ":" s in
  let n := Z.of_nat (length fields) in
  let kind := hd "" fields in
  ((n < 2 \/ 3 < n) /\
   check_bootstrap (Some s) = Raise (EasyBuildError bootstrap_format_error_msg []))
  \/ (2 <= n <= 3 /\ ~ In kind SINGULARITY_BOOTSTRAP_TYPES /\
      check_bootstrap (Some s)
      = Raise (EasyBuildError "bootstrap type must be one of docker, localimage, shub" []))
  \/ (2 <= n <= 3 /\ In kind SINGULARITY_BOOTSTRAP_TYPES /\
      check_bootstrap (Some s) = Ok (kind, fields)).
Proof.
  intros Hs fields n kind.
  destruct s as [|c s]; [congruence |].
  unfold check_bootstrap. cbv zeta.
  change (split ":" (String c s)) with fields.
  change (Z.of_nat (length fields)) with n.
  change (hd "" fields) with kind.
  destruct (3 <? n) eqn:Hgt; cbn [orb].
  - left. apply Z.ltb_lt in Hgt. split; [lia | reflexivity].
  - apply Z.ltb_ge in Hgt.
    destruct (n <=? 1) eqn:Hle.
    + left. apply Z.leb_le in Hle. split; [lia | reflexivity].
    + apply Z.leb_gt in Hle. right.
      destruct (mem kind SINGULARITY_BOOTSTRAP_TYPES) eqn:Hm; cbn [negb].
      * right. apply mem_In in Hm.
        split; [lia | split; [exact Hm | reflexivity]].
      * left. split; [lia | split; [| reflexivity]].
        intros Hin. apply mem_In in Hin. congruence.
Qed.

(** C4, the claim as stated fails on the empty string: it has a single
    field, yet the error raised for it does not enumerate the accepted
    forms. *)
Lemma C4_empty_string_counterexample :
  ~ (forall s : string,
        let n := Z.of_nat (length (split ":" s)) in
        (n < 2 \/ 3 < n) ->
        exists msg args,
          check_bootstrap (Some s) = Raise (EasyBuildError msg args)
          /\ enumerates_accepted_forms
               (error_message (EasyBuildError msg args)) = true).
Proof.
  intros H.
  destruct (H "") as [msg [args [Heq Hen]]]; [left; reflexivity |].
  simpl in Heq. inversion Heq; subst. vm_compute in Hen. discriminate.
Qed.

(** C4 (amended): for every bootstrap string, [check_bootstrap] succeeds
    exactly when splitting on ':' yields 2 or 3 fields and the first
    field is one of localimage, shub, docker, and then returns that first
    field as the kind together with the fields.  A non-empty string with
    fewer than 2 or more than 3 fields fails with the build error whose
    message enumerates the three accepted forms; the empty string (like
    an unset option) fails with the build error saying that the option
    must be specified; 2 or 3 fields with an unrecognised first field
    fail with the build error listing the accepted kinds. *)
Theorem C4_check_bootstrap_resolution (s : string) :
  let fields := split ":" s in
  let n := Z.of_nat (length fields) in
  let kind := hd "" fields in
  ((exists r, check_bootstrap (Some s) = Ok r)
   <-> (2 <= n <= 3 /\ In kind [LOCALIMAGE; SHUB; DOCKER]))
  /\ (forall r, check_bootstrap (Some s) = Ok r -> r = (kind, fields))
  /\ (s <> "" -> n < 2 \/ 3 < n ->
      check_bootstrap (Some s)
      = Raise (EasyBuildError bootstrap_format_error_msg [])
      /\ enumerates_accepted_forms
           (error_message (EasyBuildError bootstrap_format_error_msg [])) = true)
  /\ (s = "" ->
      check_bootstrap (Some s)
      = Raise (EasyBuildError "--singularity-bootstrap must be specified" [])
      /\ check_bootstrap None = check_bootstrap (Some s))
  /\ (2 <= n <= 3 -> ~ In kind [LOCALIMAGE; SHUB; DOCKER] ->
      check_bootstrap (Some s)
      = Raise (EasyBuildError
                 "bootstrap type must be one of docker, localimage, shub" [])).
Proof.
  intros fields n kind.
  destruct (string_dec s "") as [He|Hne].
  - subst s. subst fields n kind. simpl.
    split; [split; [intros [r Hr]; discriminate | intros [? _]; lia] |].
    split; [intros r Hr; discriminate |].
    split; [intros Habs; congruence |].
    split; [intros _; split; reflexivity |].
    intros ? _. lia.
  - pose proof (check_bootstrap_cases s Hne) as Hc.
    cbv zeta in Hc. fold fields n kind in Hc.
    assert (Hperm := bootstrap_types_perm kind).
    destruct Hc as [[Hn Hr] | [[Hn [Hk Hr]] | [Hn [Hk Hr]]]]; rewrite Hr.
    + split; [split; [intros [r Habs]; discriminate | intros [? _]; lia] |].
      split; [intros r Habs; discriminate |].
      split; [intros _ _; split; reflexivity |].
      split; [intros Habs; congruence |].
      intros ? _. lia.
    + split; [split; [intros [r Habs]; discriminate |] |].
      { intros [_ Hin]. apply Hperm in Hin. contradiction. }
      split; [intros r Habs; discriminate |].
      split; [intros _ ?; lia |].
      split; [intros Habs; congruence |].
      intros _ _. reflexivity.
    + split; [split |].
      { intros _. split; [exact Hn | apply Hperm; exact Hk]. }
      { intros _. eexists. reflexivity. }
      split; [intros r Habs; congruence |].
      split; [intros _ ?; lia |].
      split; [intros Habs; congruence |].
      intros _ Hnot. elim Hnot. apply Hperm. exact Hk.
Qed.

(** ** The write phase *)

(** What is a directory exists. *)
Lemma isdir_exists (w : World) (p : string) :
  os_path_isdir w p = true -> os_path_exists w p = true.
Proof.
  unfold os_path_isdir, os_path_exists. intros H.
  apply andb_true_iff in H. destruct H as [Hp Hd]. now rewrite Hp, Hd.
Qed.

(** Validating the bootstrap source reads the file system only. *)
Lemma check_bootstrap_source_world bt bl w :
  snd (check_bootstrap_source bt bl w) = w.
Proof.
  unfold check_bootstrap_source, bind, gets, ret, raise.
  destruct (String.eqb bt LOCALIMAGE); [| reflexivity].
  destruct (os_path_exists w (item bl 1)); [| reflexivity].
  destruct (_ || _); reflexivity.
Qed.

(** When the write phase succeeds, every step before it succeeded, and
    the world is the one after the write. *)
Lemma write_definition_file_ok cfg ecs options w wp df w' :
  write_definition_file cfg ecs options w = (Ok (wp, df), w') ->
  exists bt bl spec src r,
    wp = singularity_path cfg
    /\ os_path_isdir w wp = true
    /\ check_bootstrap (singularity_bootstrap options) = Ok (bt, bl)
    /\ first_spec ecs = Ok spec
    /\ check_bootstrap_source bt bl w = (Ok src, w)
    /\ recipe_text (get_module_naming_scheme cfg) bt src (ec spec) = Ok r
    /\ df = def_file r
    /\ w' = world_after_write w wp r.
Proof.
  unfold write_definition_file, bind, gets, lift.
  destruct (os_path_exists w (singularity_path cfg)
            && os_path_isdir w (singularity_path cfg)) eqn:Hvalid;
    [| unfold raise; discriminate].
  unfold ret at 1.
  destruct (check_bootstrap (singularity_bootstrap options))
    as [[bt bl]|e] eqn:Hcb; [| discriminate].
  destruct (first_spec ecs) as [spec|e] eqn:Hfs; [| discriminate].
  pose proof (check_bootstrap_source_world bt bl w) as Hw.
  destruct (check_bootstrap_source bt bl w) as [[src|e] w1] eqn:Hsrc;
    simpl in Hw; subst w1; [| discriminate].
  destruct (recipe_text (get_module_naming_scheme cfg) bt src (ec spec))
    as [r|e] eqn:Hr; [| discriminate].
  apply andb_true_iff in Hvalid. destruct Hvalid as [_ Hdir].
  unfold change_dir. rewrite Hdir.
  unfold write_file, print_msg, ret. cbn [cwd dirs files which_singularity
    singularity_version_output system_calls popen_calls messages abspath].
  intros H. inversion H; subst.
  exists bt, bl, spec, src, r. repeat split; auto.
Qed.

(** Conversely, the write phase succeeds whenever each step does. *)
Lemma write_definition_file_succeeds cfg ecs options w bt bl spec src r :
  os_path_isdir w (singularity_path cfg) = true ->
  check_bootstrap (singularity_bootstrap options) = Ok (bt, bl) ->
  first_spec ecs = Ok spec ->
  check_bootstrap_source bt bl w = (Ok src, w) ->
  recipe_text (get_module_naming_scheme cfg) bt src (ec spec) = Ok r ->
  write_definition_file cfg ecs options w
  = (Ok (singularity_path cfg, def_file r),
     world_after_write w (singularity_path cfg) r).
Proof.
  intros Hdir Hcb Hfs Hsrc Hr.
  unfold write_definition_file, bind, gets, lift.
  assert (Hex : os_path_exists w (singularity_path cfg) = true).
  { now apply isdir_exists. }
  rewrite Hex, Hdir. cbn [andb]. unfold ret at 1.
  rewrite Hcb, Hfs, Hsrc, Hr.
  unfold change_dir. rewrite Hdir. reflexivity.
Qed.

(** After the write phase the definition file holds the composed text. *)
Lemma written_file_holds_content (w : World) (writepath : string)
      (r : RecipeText) :
  read_file (world_after_write w writepath r) (def_file r) = Some (content r).
Proof.
  unfold read_file, world_after_write, abspath. cbn [cwd files lookup_file].
  now rewrite String.eqb_refl.
Qed.

(** The write phase runs no shell command and opens no process. *)
Lemma write_definition_file_no_command cfg ecs options w res w' :
  write_definition_file cfg ecs options w = (res, w') ->
  system_calls w' = system_calls w /\ popen_calls w' = popen_calls w.
Proof.
  unfold write_definition_file, bind, gets, lift.
  destruct (_ && _) eqn:Hvalid;
    [| unfold raise; intros H; inversion H; subst; auto].
  unfold ret at 1.
  destruct (check_bootstrap _) as [[bt bl]|e];
    [| intros H; inversion H; subst; auto].
  destruct (first_spec ecs) as [spec|e];
    [| intros H; inversion H; subst; auto].
  pose proof (check_bootstrap_source_world bt bl w) as Hw.
  destruct (check_bootstrap_source bt bl w) as [[src|e] w1];
    simpl in Hw; subst w1; [| intros H; inversion H; subst; auto].
  destruct (recipe_text _ _ _ _) as [r|e];
    [| intros H; inversion H; subst; auto].
  apply andb_true_iff in Hvalid. destruct Hvalid as [_ Hdir].
  unfold change_dir. rewrite Hdir.
  unfold write_file, print_msg, ret. intros H. inversion H; subst. auto.
Qed.

(** ** The image build *)

(** An existing image is refused and the world is left as it was. *)
Lemma build_unless_exists_refuses writepath container_name cmd w :
  os_path_exists w container_name = true ->
  build_unless_exists writepath container_name cmd w
  = (Raise (EasyBuildError
              ("Image already exist at " ++ OsPath.join writepath container_name)
              []), w).
Proof.
  intros He. unfold build_unless_exists, bind, gets. now rewrite He.
Qed.

(** Otherwise the builder is run, once, with the given command. *)
Lemma build_unless_exists_builds writepath container_name cmd w :
  os_path_exists w container_name = false ->
  build_unless_exists writepath container_name cmd w = os_system cmd w.
Proof.
  intros He. unfold build_unless_exists, bind, gets. now rewrite He.
Qed.

(** C3: when an image build is requested and the definition file was
    written, then for each image format (squashfs with suffix .simg, ext3
    with suffix .img, sandbox with no suffix) an already existing final
    image path makes [generate_singularity_recipe] raise the build error
    that names this path within the recipe directory, and no command has
    been handed to the shell since the function was entered. *)
Theorem C3_existing_image_refused cfg ecs options w wp df w' final :
  write_definition_file cfg ecs options w = (Ok (wp, df), w') ->
  buildimage cfg = true ->
  (imageformat cfg = "squashfs"
   /\ final = container_base (imagename cfg) df ++ ".simg")
  \/ (imageformat cfg = "ext3"
      /\ final = container_base (imagename cfg) df ++ ".img")
  \/ (imageformat cfg = "sandbox"
      /\ final = container_base (imagename cfg) df) ->
  os_path_exists w' final = true ->
  generate_singularity_recipe cfg ecs options w
  = (Raise (EasyBuildError
              ("Image already exist at " ++ OsPath.join wp final) []), w')
  /\ system_calls w' = system_calls w.
Proof.
  intros Hwrite Hbuild Hfmt Hex.
  split; [| exact (proj1 (write_definition_file_no_command _ _ _ _ _ _ Hwrite))].
  unfold generate_singularity_recipe, bind. rewrite Hwrite, Hbuild.
  unfold build_container.
  destruct Hfmt as [[Hf Hfin] | [[Hf Hfin] | [Hf Hfin]]];
    rewrite Hf; cbn [String.eqb Ascii.eqb Bool.eqb andb]; subst final;
    now apply build_unless_exists_refuses.
Qed.

(** The command handed to the shell when the final image path is free,
    for each image format. *)
Lemma build_container_command image_name def_file writepath w :
  let base := container_base image_name def_file in
  (os_path_exists w (base ++ ".simg") = false ->
   build_container image_name "squashfs" writepath def_file w
   = os_system ("sudo singularity build " ++ (base ++ ".simg") ++ " " ++ def_file) w)
  /\ (os_path_exists w (base ++ ".img") = false ->
      build_container image_name "ext3" writepath def_file w
      = os_system ("sudo singularity build --writable " ++ (base ++ ".img")
                     ++ " " ++ def_file) w)
  /\ (os_path_exists w base = false ->
      build_container image_name "sandbox" writepath def_file w
      = os_system ("sudo singularity build --sandbox " ++ base ++ " " ++ def_file) w).
Proof.
  intros base. unfold build_container. fold base.
  cbn [String.eqb Ascii.eqb Bool.eqb andb].
  repeat split; intros He; now apply build_unless_exists_builds.
Qed.

Lemma find_from_absent_append (c : ascii) (a b : string) (i : Z) :
  find_from c a i = -1 -> 0 <= i ->
  find_from c (a ++ String c b) i = i + len a.
Proof.
  revert i. induction a as [|x a IH]; intros i Ha Hi; simpl in *.
  - rewrite Ascii.eqb_refl. unfold len. simpl. lia.
  - destruct (Ascii.eqb x c); [lia |].
    rewrite IH by (auto; lia). unfold len. simpl String.length. lia.
Qed.

Lemma slice_from_length_append (a b : string) :
  slice_from (a ++ b) (len a) = b.
Proof.
  unfold slice_from, clamp, len. rewrite length_append.
  destruct (Z.of_nat (String.length a) <? 0) eqn:Hneg;
    [apply Z.ltb_lt in Hneg; lia |].
  rewrite Z.min_r by lia. rewrite Nat2Z.id. apply drop_length_append.
Qed.

(** ** The bootstrap source *)

(** A local image that does not exist is refused with the build error
    that names its path. *)
Lemma missing_local_image_refused cfg ecs options w bl spec :
  os_path_isdir w (singularity_path cfg) = true ->
  check_bootstrap (singularity_bootstrap options) = Ok (LOCALIMAGE, bl) ->
  first_spec ecs = Ok spec ->
  os_path_exists w (item bl 1) = false ->
  generate_singularity_recipe cfg ecs options w
  = (Raise (EasyBuildError
              "Singularity base image at specified path does not exist: %s"
              [item bl 1]), w).
Proof.
  intros Hdir Hcb Hfs Hex.
  unfold generate_singularity_recipe, write_definition_file, bind, gets, lift.
  assert (Hex' : os_path_exists w (singularity_path cfg) = true).
  { now apply isdir_exists. }
  rewrite Hex', Hdir. cbn [andb]. unfold ret at 1. rewrite Hcb, Hfs.
  unfold check_bootstrap_source, bind, gets.
  rewrite String.eqb_refl, Hex. reflexivity.
Qed.

(** C2: a local image whose path exists but whose extension is neither
    .img nor .simg makes [generate_singularity_recipe] raise [NameError]
    for the unbound name EaasyBuildError, which is not a build error and
    does not carry the extension. *)
Theorem C2_bad_extension_raises_NameError cfg ecs options w bl spec :
  os_path_isdir w (singularity_path cfg) = true ->
  check_bootstrap (singularity_bootstrap options) = Ok (LOCALIMAGE, bl) ->
  first_spec ecs = Ok spec ->
  os_path_exists w (item bl 1) = true ->
  snd (OsPath.splitext (item bl 1)) <> ".img" ->
  snd (OsPath.splitext (item bl 1)) <> ".simg" ->
  generate_singularity_recipe cfg ecs options w
  = (Raise (NameError "EaasyBuildError"), w)
  /\ is_EasyBuildError (NameError "EaasyBuildError") = false.
Proof.
  intros Hdir Hcb Hfs Hex Himg Hsimg. split; [| reflexivity].
  unfold generate_singularity_recipe, write_definition_file, bind, gets, lift.
  assert (Hex' : os_path_exists w (singularity_path cfg) = true).
  { now apply isdir_exists. }
  rewrite Hex', Hdir. cbn [andb]. unfold ret at 1. rewrite Hcb, Hfs.
  unfold check_bootstrap_source, bind, gets.
  rewrite String.eqb_refl, Hex.
  apply String.eqb_neq in Himg. apply String.eqb_neq in Hsimg.
  rewrite Himg, Hsimg. reflexivity.
Qed.

(** ** The package installation lines *)

Lemma install_lines_cons (p : string) (ps : list string) :
  install_lines (p :: ps) = install_line p ++ install_lines ps.
Proof.
  unfold install_lines. simpl map. destruct (map install_line ps) eqn:Hm.
  - simpl. now rewrite append_nil_r.
  - reflexivity.
Qed.

Lemma install_alternatives_lines (alternatives : list string) (acc : string) :
  install_alternatives alternatives acc = acc ++ install_lines alternatives.
Proof.
  unfold install_alternatives. revert acc.
  induction alternatives as [|p ps IH]; intros acc.
  - simpl. now rewrite append_nil_r.
  - cbn [fold_left]. rewrite IH, install_lines_cons, append_assoc.
    reflexivity.
Qed.

Lemma install_each_lines (osdeps : list OsDep) (acc : string) :
  install_each osdeps acc
  = match all_strings osdeps with
    | Some names => Ok (acc ++ install_lines names)
    | None => Raise (TypeError "cannot concatenate 'str' and 'tuple' objects")
    end.
Proof.
  revert acc. induction osdeps as [|d rest IH]; intros acc.
  - simpl. now rewrite append_nil_r.
  - destruct d as [pkg|alts]; cbn [install_each yum_install all_strings];
      [| reflexivity].
    rewrite IH. destruct (all_strings rest) as [names|]; [| reflexivity].
    rewrite install_lines_cons, append_assoc. reflexivity.
Qed.

(** The lines are appended to what was there, and are the same whatever
    was there. *)
Lemma install_osdeps_acc (osdeps : list OsDep) (acc : string) :
  install_osdeps osdeps acc
  = match install_osdeps osdeps "" with
    | Ok lines => Ok (acc ++ lines)
    | Raise e => Raise e
    end.
Proof.
  destruct osdeps as [|[pkg|alts] rest]; cbn [install_osdeps].
  - now rewrite append_nil_r.
  - rewrite !install_each_lines.
    destruct (all_strings (OsStr pkg :: rest)); reflexivity.
  - now rewrite !install_alternatives_lines.
Qed.

(** The two shapes of the package list, on the loops alone: a tuple
    first gives the lines of its alternatives, a string first gives the
    lines of all entries when they are all strings, and a type error
    otherwise. *)
Lemma install_osdeps_shapes (post_content : string) :
  (forall alternatives rest,
      install_osdeps (OsTuple alternatives :: rest) post_content
      = Ok (post_content ++ install_lines alternatives))
  /\ (forall pkg rest,
         install_osdeps (OsStr pkg :: rest) post_content
         = match all_strings (OsStr pkg :: rest) with
           | Some names => Ok (post_content ++ install_lines names)
           | None =>
               Raise (TypeError "cannot concatenate 'str' and 'tuple' objects")
           end)
  /\ (forall names, all_strings (map OsStr names) = Some names)
  /\ install_osdeps [] post_content = Ok post_content.
Proof.
  split; [| split; [| split]].
  - intros alts rest. cbn [install_osdeps].
    now rewrite install_alternatives_lines.
  - intros pkg rest. cbn [install_osdeps]. apply install_each_lines.
  - induction names as [|p ps IH]; simpl; [reflexivity | now rewrite IH].
  - reflexivity.
Qed.

(** ** check_singularity *)

(** An absent tool is a build error when an image build is requested,
    and the recipe is not generated. *)
Lemma check_singularity_not_found float_lt cfg ecs options w :
  which_singularity w = None ->
  buildimage cfg = true ->
  check_singularity float_lt cfg ecs options w
  = (Raise (EasyBuildError "Singularity not found in your system" []), w).
Proof.
  intros Hw Hb. unfold check_singularity, which, bind, gets.
  rewrite Hw, Hb. reflexivity.
Qed.

(** The only failure of the composition of the text is the type error
    of the package installation lines. *)
Lemma recipe_text_raise scheme bt src e err :
  recipe_text scheme bt src e = Raise err ->
  err = TypeError "cannot concatenate 'str' and 'tuple' objects".
Proof.
  unfold recipe_text.
  destruct (install_osdeps (osdependencies e) _) as [pc|e4] eqn:Hi.
  - destruct (negb _); [destruct (String.eqb scheme _) |]; discriminate.
  - intros H; injection H as <-.
    destruct (osdependencies e) as [|[pkg|alts] rest];
      cbn [install_osdeps] in Hi; try discriminate.
    rewrite install_each_lines in Hi.
    destruct (all_strings _); [discriminate |].
    now injection Hi as <-.
Qed.

(** No step of the recipe generation raises the error of the version
    comparison. *)
Lemma write_definition_file_not_version_error cfg ecs options w e w' :
  write_definition_file cfg ecs options w = (Raise e, w') ->
  e <> unsupported_version_error.
Proof.
  unfold write_definition_file, bind, gets, lift, unsupported_version_error.
  destruct (_ && _) eqn:Hvalid;
    [| unfold raise; intros H; injection H as <- _; discriminate].
  unfold ret at 1.
  destruct (check_bootstrap _) as [[bt bl]|e0] eqn:Hcb.
  - destruct (first_spec ecs) as [spec|e1] eqn:Hfs.
    + pose proof (check_bootstrap_source_world bt bl w) as Hw.
      destruct (check_bootstrap_source bt bl w) as [[src|e2] w1] eqn:Hsrc;
        simpl in Hw; subst w1.
      * destruct (recipe_text _ _ _ _) as [r|e3] eqn:Hr.
        -- apply andb_true_iff in Hvalid. destruct Hvalid as [_ Hdir].
           unfold change_dir. rewrite Hdir. discriminate.
        -- intros H; injection H as <- _.
           rewrite (recipe_text_raise _ _ _ _ _ Hr). discriminate.
      * intros H; injection H as <- _.
        unfold check_bootstrap_source, bind, gets, ret, raise in Hsrc.
        destruct (String.eqb bt LOCALIMAGE); [| discriminate].
        destruct (os_path_exists w (item bl 1)).
        -- destruct (_ || _); [discriminate |].
           injection Hsrc as <-. discriminate.
        -- injection Hsrc as <-. discriminate.
    + intros H; injection H as <- _.
      destruct ecs; simpl in Hfs; [injection Hfs as <- |]; discriminate.
  - intros H; injection H as <- _.
    unfold check_bootstrap in Hcb.
    destruct (singularity_bootstrap options) as [[|c sb]|];
      try (injection Hcb as <-; discriminate).
    destruct (_ || _); [injection Hcb as <-; discriminate |].
    destruct (negb _); [injection Hcb as <-; discriminate | discriminate].
Qed.

Lemma build_unless_exists_not_version_error writepath container_name cmd w e w' :
  build_unless_exists writepath container_name cmd w = (Raise e, w') ->
  e <> unsupported_version_error.
Proof.
  unfold build_unless_exists, bind, gets, raise, os_system,
    unsupported_version_error.
  destruct (os_path_exists w container_name); [| discriminate].
  intros H; injection H as <- _. discriminate.
Qed.

Lemma generate_not_version_error cfg ecs options w e w' :
  generate_singularity_recipe cfg ecs options w = (Raise e, w') ->
  e <> unsupported_version_error.
Proof.
  unfold generate_singularity_recipe, bind.
  destruct (write_definition_file cfg ecs options w) as [[[wp df]|e0] w1] eqn:Hw.
  - destruct (buildimage cfg); [| discriminate].
    unfold build_container.
    destruct (String.eqb _ "squashfs");
      [apply build_unless_exists_not_version_error |].
    destruct (String.eqb _ "ext3");
      [apply build_unless_exists_not_version_error |].
    destruct (String.eqb _ "sandbox");
      [apply build_unless_exists_not_version_error | discriminate].
  - intros H; injection H as <- _.
    eapply write_definition_file_not_version_error; eassumption.
Qed.

(** Whatever the tool reports and however the conversion of its version
    text turns out, [check_singularity] never raises the error of the
    version comparison. *)
Lemma check_singularity_never_version_error float_lt cfg ecs options w e w' :
  check_singularity float_lt cfg ecs options w = (Raise e, w') ->
  e <> unsupported_version_error.
Proof.
  unfold check_singularity, which, bind at 1, gets.
  destruct (which_singularity w) as [[|c p]|].
  - destruct (buildimage cfg).
    + unfold bind, raise. intros H; injection H as <- _. discriminate.
    + unfold bind, ret. apply generate_not_version_error.
  - unfold bind, print_msg, popen_stdout, ret.
    apply generate_not_version_error.
  - destruct (buildimage cfg).
    + unfold bind, raise. intros H; injection H as <- _. discriminate.
    + unfold bind, ret. apply generate_not_version_error.
Qed.

(** C1: when the tool is found, [check_singularity] prints where, asks
    it for its version, and goes on to [generate_singularity_recipe]
    without comparing the version with anything: the outcome is the one
    of the recipe generation, whatever the tool reported and however the
    comparison with 2.4 would have turned out. *)
Theorem C1_version_not_checked float_lt cfg ecs options w path :
  which_singularity w = Some path ->
  path <> "" ->
  check_singularity float_lt cfg ecs options w
  = generate_singularity_recipe cfg ecs options
      (world_after_version_query w path).
Proof.
  intros Hw Hp. unfold check_singularity, which, bind at 1, gets. rewrite Hw.
  destruct path as [|c p]; [congruence |].
  unfold bind, print_msg, popen_stdout, ret. reflexivity.
Qed.

(** ** The text of the recipe *)

Ltac str_norm :=
  unfold LF, DQUOTE, eb_flags, cleanup_cmd, join;
  repeat first [rewrite append_assoc | progress cbn [append String.concat]];
  reflexivity.

(** Every field of a generated recipe, in closed form. *)
Lemma recipe_text_fields scheme bt src e r :
  recipe_text scheme bt src e = Ok r ->
  exists installs,
    install_osdeps (osdependencies e) "" = Ok installs
    /\ bootstrap_content r = bootstrap_section bt src
    /\ easyconfig r = name_stem e ++ ".eb"
    /\ def_file r = "Singularity." ++ name_stem e
    /\ ebfile r = fst (OsPath.splitext (easyconfig r)) ++ ".eb"
    /\ post_content r
       = LF ++ "%post" ++ LF ++ installs
            ++ "pip install -U easybuild " ++ LF
            ++ "su - easybuild " ++ LF
            ++ "eb " ++ ebfile r ++ eb_flags ++ scheme ++ LF
            ++ "exit" ++ LF
            ++ cleanup_cmd
    /\ runscript_content r
       = "%runscript" ++ LF ++ "eval " ++ DQUOTE ++ "$@" ++ DQUOTE
    /\ environment_content r
       = LF ++ "%environment" ++ LF ++ "source /etc/profile" ++ LF
            ++ "module use " ++ modulepath_of scheme ++ LF
            ++ load_lines scheme e
    /\ label_content r = LF ++ "%labels " ++ LF
    /\ content r
       = bootstrap_content r ++ post_content r ++ runscript_content r
                             ++ environment_content r ++ label_content r.
Proof.
  unfold recipe_text, name_stem, load_lines, modulepath_of.
  rewrite (install_osdeps_acc (osdependencies e)).
  destruct (install_osdeps (osdependencies e) "") as [installs|err];
    [| discriminate].
  intros H. exists installs. split; [reflexivity |].
  destruct (negb (String.eqb (tc_name (toolchain e)) "dummy"));
    [destruct (String.eqb scheme "HierarchicalMNS") |];
    injection H as H; subst r;
    cbn [bootstrap_content easyconfig def_file ebfile post_content
         runscript_content environment_content label_content content];
    (split; [reflexivity |]); (split; [str_norm |]); (split; [str_norm |]);
    (split; [reflexivity |]); (split; [str_norm |]); (split; [reflexivity |]);
    (split; [str_norm |]); (split; reflexivity).
Qed.

(** ** The name of the container *)

(** The container name before its suffix: a configured image name as it
    is, whatever the definition file is called, and otherwise what
    follows the first '.' of the name of the definition file, which for a
    generated recipe is its name without the leading "Singularity." *)
Lemma container_base_cases (def_file0 : string) :
  (forall image_name, container_base (Some image_name) def_file0 = image_name)
  /\ (forall stem rest,
         find "." stem = -1 ->
         def_file0 = stem ++ "." ++ rest ->
         container_base None def_file0 = rest)
  /\ (forall scheme bt src e r,
         recipe_text scheme bt src e = Ok r ->
         container_base None (def_file r) = name_stem e).
Proof.
  assert (Hstrip : forall stem rest,
             find "." stem = -1 ->
             container_base None (stem ++ "." ++ rest) = rest).
  { intros stem rest Hstem. unfold container_base, find.
    change (stem ++ "." ++ rest) with (stem ++ String "." rest).
    rewrite find_from_absent_append by (auto; lia).
    replace (0 + len stem + 1) with (len (stem ++ ".")).
    - change (stem ++ String "." rest) with (stem ++ "." ++ rest).
      rewrite <- append_assoc. apply slice_from_length_append.
    - unfold len. rewrite length_append. simpl String.length. lia. }
  split; [reflexivity | split].
  - intros stem rest Hstem ->. now apply Hstrip.
  - intros scheme bt src e r Hr.
    destruct (recipe_text_fields _ _ _ _ _ Hr) as [_ [_ [_ [_ [Hdf _]]]]].
    rewrite Hdf. apply (Hstrip "Singularity" (name_stem e)). reflexivity.
Qed.

(** ** Splitting the extension off a derived file name *)

Lemma len_nonneg (s : string) : 0 <= len s.
Proof. unfold len. lia. Qed.

Lemma len_append (a b : string) : len (a ++ b) = len a + len b.
Proof. unfold len. rewrite length_append. lia. Qed.

Lemma rfind_from_append (c : ascii) (a b : string) (i last : Z) :
  rfind_from c (a ++ b) i last
  = rfind_from c b (i + len a) (rfind_from c a i last).
Proof.
  revert i last. induction a as [|x a IH]; intros i last; simpl.
  - unfold len. simpl. now rewrite Z.add_0_r.
  - rewrite IH. unfold len. simpl String.length.
    f_equal. lia.
Qed.

Lemma rfind_from_bounds (c : ascii) (s : string) (i last : Z) :
  last < i -> last <= rfind_from c s i last < i + len s.
Proof.
  revert i last. induction s as [|x s IH]; intros i last Hlt; simpl.
  - unfold len. simpl. lia.
  - assert (Hlen : len (String x s) = 1 + len s)
      by (unfold len; simpl String.length; lia).
    rewrite Hlen.
    destruct (Ascii.eqb x c).
    + specialize (IH (i + 1) i). lia.
    + specialize (IH (i + 1) last). lia.
Qed.

Lemma take_drop (n : nat) (s : string) : take n s ++ drop n s = s.
Proof.
  revert s. induction n as [|n IH]; intros s; [reflexivity |].
  destruct s as [|x s]; simpl; [reflexivity | now rewrite IH].
Qed.

Lemma length_take (n : nat) (s : string) :
  (n <= String.length s)%nat -> String.length (take n s) = n.
Proof.
  revert s. induction n as [|n IH]; intros s Hn; [reflexivity |].
  destruct s as [|x s]; simpl in *; [lia | rewrite IH; lia].
Qed.

Lemma clamp_inside (s : string) (i : Z) :
  0 <= i <= len s -> clamp s i = Z.to_nat i.
Proof.
  intros Hi. unfold clamp.
  destruct (i <? 0) eqn:Hneg; [apply Z.ltb_lt in Hneg; lia |].
  now rewrite Z.min_r by lia.
Qed.

Lemma slice_to_length_append (a b : string) : slice_to (a ++ b) (len a) = a.
Proof.
  unfold slice_to. rewrite clamp_inside.
  - unfold len. rewrite Nat2Z.id. apply take_length_append.
  - rewrite len_append. pose proof (len_nonneg a). pose proof (len_nonneg b).
    lia.
Qed.

(** The loop that skips leading dots, run over a component [b] that
    starts at index [len a]. *)
Lemma skip_leading_dots_component (a b c : string) :
  OsPath.skip_leading_dots (a ++ b ++ c) (len a) (len a + len b)
                           (String.length b)
  = if only_dots b then (a ++ b ++ c, "")
    else (slice_to (a ++ b ++ c) (len a + len b),
          slice_from (a ++ b ++ c) (len a + len b)).
Proof.
  revert a. induction b as [|x b IH]; intros a; [reflexivity |].
  cbn [String.length OsPath.skip_leading_dots only_dots].
  unfold char_at. rewrite slice_from_length_append.
  cbn [append take String.eqb].
  destruct (Ascii.eqb x ".") eqn:Hx; cbn [negb andb]; [| reflexivity].
  specialize (IH (a ++ String x "")).
  rewrite len_append in IH.
  replace (len (String x "")) with 1 in IH by reflexivity.
  replace (len (String x b)) with (1 + len b)
    by (unfold len; simpl String.length; lia).
  rewrite append_assoc in IH. cbn [append] in IH.
  replace (len a + (1 + len b)) with (len a + 1 + len b) by lia.
  exact IH.
Qed.

(** A name whose last path component has something else than dots
    before ".eb" is split into that name and ".eb". *)
Lemma splitext_eb (stem : string) :
  only_dots (basename stem) = false ->
  OsPath.splitext (stem ++ ".eb") = (stem, ".eb").
Proof.
  intros Hdots. unfold OsPath.splitext, rfind.
  rewrite !rfind_from_append. cbn [rfind_from Ascii.eqb Bool.eqb andb].
  cbv zeta. fold (rfind "/" stem).
  pose proof (rfind_from_bounds "/" stem 0 (-1) ltac:(lia)) as Hsep.
  fold (rfind "/" stem) in Hsep.
  set (sep := rfind "/" stem) in *.
  replace (0 + len stem) with (len stem) by lia.
  destruct (sep <? len stem) eqn:Hlt; [| apply Z.ltb_ge in Hlt; lia].
  unfold basename in Hdots. fold sep in Hdots.
  unfold slice_from in Hdots. rewrite clamp_inside in Hdots by lia.
  set (k := Z.to_nat (sep + 1)) in *.
  assert (Hk : (k <= String.length stem)%nat) by (unfold len in Hsep; lia).
  pose proof (skip_leading_dots_component (take k stem) (drop k stem) ".eb")
    as Hskip.
  rewrite Hdots in Hskip.
  rewrite <- append_assoc, take_drop in Hskip.
  assert (Hlena : len (take k stem) = sep + 1).
  { unfold len. rewrite length_take by exact Hk. unfold k. lia. }
  assert (Hlenb : len (take k stem) + len (drop k stem) = len stem).
  { rewrite <- len_append. now rewrite take_drop. }
  rewrite Hlenb, Hlena in Hskip.
  replace (Z.to_nat (len stem - (sep + 1))) with (String.length (drop k stem)).
  - rewrite Hskip. now rewrite slice_to_length_append, slice_from_length_append.
  - unfold len in Hlenb, Hlena |- *. lia.
Qed.

Lemma rfind_from_absent (c : ascii) (s : string) (i j last : Z) :
  find_from c s i = -1 -> 0 <= i -> rfind_from c s j last = last.
Proof.
  revert i j last. induction s as [|x s IH]; intros i j last Hf Hi; simpl in *;
    [reflexivity |].
  destruct (Ascii.eqb x c); [lia |].
  apply (IH (i + 1)); [exact Hf | lia].
Qed.

Lemma only_dots_dash (a b : string) : only_dots (a ++ String "-" b) = false.
Proof.
  induction a as [|x a IH]; simpl; [reflexivity |].
  rewrite IH. apply andb_false_r.
Qed.

(** The derived names of an easyconfig whose parameters hold no path
    separator have a last component with more than dots in it. *)
Lemma name_stem_basename (e : EasyConfig) :
  find "/" (name_stem e) = -1 -> only_dots (basename (name_stem e)) = false.
Proof.
  intros Hf. unfold basename, rfind.
  rewrite (rfind_from_absent "/" (name_stem e) 0 0 (-1) Hf) by lia.
  unfold slice_from.
  rewrite clamp_inside by (pose proof (len_nonneg (name_stem e)); lia).
  cbn [Z.add Z.opp Z.to_nat Z.pos_sub drop]. unfold name_stem.
  destruct (negb _); apply only_dots_dash.
Qed.

(** ** The post-install section *)

Lemma last_three {A} (pre : list A) (a b c d : A) :
  last (pre ++ [a; b; c])%list d = c.
Proof.
  induction pre as [|x pre IH]; [reflexivity |].
  cbn [app last].
  destruct (pre ++ [a; b; c])%list eqn:Hp; [| exact IH].
  destruct pre; discriminate.
Qed.

(** C5, the claim as stated fails for bzip2 bootstrapped from a docker
    image: the lines of the post-install section do not end with the
    build invocation, the cleanup line and then exit. *)
Lemma C5_cleanup_then_exit_counterexample :
  exists r,
    recipe_text "EasyBuildMNS" DOCKER (FromHub "ubuntu" (Some "16.04")) bzip2_ec
    = Ok r
    /\ ~ (exists pre build_line,
             split "010" (post_content r)
             = (pre ++ [build_line; cleanup_cmd; "exit"])%list).
Proof.
  eexists. split; [vm_compute; reflexivity |].
  intros [pre [build_line H]].
  apply (f_equal (fun l => last l "")) in H.
  rewrite last_three in H. vm_compute in H. discriminate.
Qed.

(** C5 (amended): in every generated post-install section, after the
    header, the package-install lines, the tool-upgrade line and the
    user-switch line, comes the build invocation line, then an exit line,
    and last the cleanup command removing the scratch build artifacts
    (build invocation before exit, exit before cleanup).  The file named
    on the build invocation line is the derived easyconfig filename with
    its extension split off and .eb put back; it is the derived filename
    itself whenever the last path component of its stem has a character
    other than a dot, as it has when no parameter holds a '/'. *)
Theorem C5_post_section_order scheme bt src e r :
  recipe_text scheme bt src e = Ok r ->
  exists installs,
    install_osdeps (osdependencies e) "" = Ok installs
    /\ post_content r
       = LF ++ "%post" ++ LF ++ installs
            ++ "pip install -U easybuild " ++ LF
            ++ "su - easybuild " ++ LF
            ++ "eb " ++ ebfile r ++ eb_flags ++ scheme ++ LF
            ++ "exit" ++ LF
            ++ cleanup_cmd
    /\ ebfile r = fst (OsPath.splitext (easyconfig r)) ++ ".eb"
    /\ (only_dots (basename (name_stem e)) = false -> ebfile r = easyconfig r)
    /\ (find "/" (name_stem e) = -1 -> ebfile r = easyconfig r).
Proof.
  intros Hr.
  destruct (recipe_text_fields _ _ _ _ _ Hr)
    as [installs [Hi [_ [Hec [_ [Heb [Hpost _]]]]]]].
  exists installs.
  assert (Hsame : only_dots (basename (name_stem e)) = false ->
                  ebfile r = easyconfig r).
  { intros Hd. rewrite Heb, Hec, splitext_eb by exact Hd. reflexivity. }
  repeat split; auto.
  intros Hf. apply Hsame. now apply name_stem_basename.
Qed.

(** ** The bootstrap section *)

(** C6: the bootstrap section has two lines, a header line and a From
    line that gives the path of a local image, or the image of a hub with
    its tag after a colon when there is one; the header line of a local
    image starts with "Bootstrap: " while the header line of a shub or
    docker image starts with "BootStrap: ", so the header text is not the
    same for the three kinds. *)
Theorem C6_bootstrap_header_case
        (bootstrap_type bootstrap_imagepath bootstrap_image : string)
        (image_tag : option string) :
  bootstrap_section bootstrap_type (FromLocal bootstrap_imagepath)
  = "Bootstrap: " ++ bootstrap_type ++ LF
      ++ "From: " ++ bootstrap_imagepath ++ LF
  /\ bootstrap_section bootstrap_type (FromHub bootstrap_image image_tag)
     = "BootStrap: " ++ bootstrap_type ++ LF
         ++ "From: " ++ bootstrap_image
         ++ match image_tag with Some tag => ":" ++ tag | None => "" end
         ++ LF
  /\ String.prefix "Bootstrap: "
       (bootstrap_section bootstrap_type (FromHub bootstrap_image image_tag))
     = false.
Proof.
  split; [| split].
  - unfold bootstrap_section. str_norm.
  - unfold bootstrap_section. destruct image_tag; str_norm.
  - unfold bootstrap_section. destruct image_tag; reflexivity.
Qed.

(** ** The package lines in the recipe *)

(** The composition succeeds whenever the package lines do. *)
Lemma recipe_text_succeeds scheme bt src e installs :
  install_osdeps (osdependencies e) "" = Ok installs ->
  exists r, recipe_text scheme bt src e = Ok r.
Proof.
  intros Hi. unfold recipe_text.
  rewrite (install_osdeps_acc (osdependencies e)), Hi.
  destruct (negb _); [destruct (String.eqb scheme _) |];
    eexists; reflexivity.
Qed.

(** The entries after a first tuple do not reach the recipe. *)
Lemma recipe_text_tuple_tail scheme bt src n v s tc alternatives rest :
  recipe_text scheme bt src (mkEasyConfig n v s tc (OsTuple alternatives :: rest))
  = recipe_text scheme bt src (mkEasyConfig n v s tc [OsTuple alternatives]).
Proof. reflexivity. Qed.

(** C9: when the first entry of the OS dependencies is a tuple, the
    recipe is composed, its post-install section has, between the header
    and the tool-upgrade line, one fault-tolerant install line per
    alternative of that tuple, and the recipe is the one composed from
    that tuple alone: the entries after it are ignored.  When the first
    entry is a string, the loop runs over every entry and uses it as a
    package name: a list of strings gives a recipe with one install line
    per entry, and an entry that is not a string stops the composition
    with a type error. *)
Theorem C9_osdependencies_in_recipe scheme bt src e :
  let post_of (installs eb_file : string) :=
    LF ++ "%post" ++ LF ++ installs
       ++ "pip install -U easybuild " ++ LF
       ++ "su - easybuild " ++ LF
       ++ "eb " ++ eb_file ++ eb_flags ++ scheme ++ LF
       ++ "exit" ++ LF
       ++ cleanup_cmd in
  (forall alternatives rest,
      osdependencies e = OsTuple alternatives :: rest ->
      exists r,
        recipe_text scheme bt src e = Ok r
        /\ post_content r = post_of (install_lines alternatives) (ebfile r)
        /\ recipe_text scheme bt src
             (mkEasyConfig (name e) (version e) (versionsuffix e) (toolchain e)
                           [OsTuple alternatives])
           = Ok r)
  /\ (forall pkg rest names,
         osdependencies e = OsStr pkg :: rest ->
         all_strings (OsStr pkg :: rest) = Some names ->
         exists r,
           recipe_text scheme bt src e = Ok r
           /\ post_content r = post_of (install_lines names) (ebfile r))
  /\ (forall pkg rest,
         osdependencies e = OsStr pkg :: rest ->
         all_strings (OsStr pkg :: rest) = None ->
         recipe_text scheme bt src e
         = Raise (TypeError "cannot concatenate 'str' and 'tuple' objects"))
  /\ (forall names, all_strings (map OsStr names) = Some names).
Proof.
  intros post_of.
  assert (Hpost : forall installs,
             install_osdeps (osdependencies e) "" = Ok installs ->
             exists r, recipe_text scheme bt src e = Ok r
                       /\ post_content r = post_of installs (ebfile r)).
  { intros installs Hi.
    destruct (recipe_text_succeeds scheme bt src e installs Hi) as [r Hr].
    exists r. split; [exact Hr |].
    destruct (recipe_text_fields _ _ _ _ _ Hr)
      as [installs' [Hi' [_ [_ [_ [_ [Hp _]]]]]]].
    rewrite Hi in Hi'. injection Hi' as <-. exact Hp. }
  split; [| split; [| split]].
  - intros alternatives rest Hos.
    destruct (Hpost (install_lines alternatives)) as [r [Hr Hp]].
    { rewrite Hos. cbn [install_osdeps].
      now rewrite install_alternatives_lines. }
    exists r. split; [exact Hr | split; [exact Hp |]].
    rewrite <- Hr. destruct e as [n v s tc os]. cbn in Hos. subst os.
    symmetry. apply recipe_text_tuple_tail.
  - intros pkg rest names Hos Hall.
    apply Hpost. rewrite Hos. cbn [install_osdeps].
    now rewrite install_each_lines, Hall.
  - intros pkg rest Hos Hall. unfold recipe_text.
    rewrite Hos. cbn [install_osdeps]. now rewrite install_each_lines, Hall.
  - induction names as [|p ps IH]; simpl; [reflexivity | now rewrite IH].
Qed.

(** ** The image name in the build *)

(** C10: in an image build, the name of the image before its suffix is
    the configured image name verbatim when one is set; when none is set
    it is what follows the first '.' of the name of the definition file,
    that is the name without its leading "Singularity.".  This name with
    the suffix of the format is the path the build is refused for when it
    exists, and the path handed to the builder when it is free. *)
Theorem C10_image_name_in_build cfg ecs options w wp df w' flag suffix :
  write_definition_file cfg ecs options w = (Ok (wp, df), w') ->
  buildimage cfg = true ->
  (imageformat cfg = "squashfs" /\ flag = "" /\ suffix = ".simg")
  \/ (imageformat cfg = "ext3" /\ flag = "--writable " /\ suffix = ".img")
  \/ (imageformat cfg = "sandbox" /\ flag = "--sandbox " /\ suffix = "") ->
  exists base,
    (forall v, imagename cfg = Some v -> base = v)
    /\ (imagename cfg = None ->
        df = "Singularity." ++ base /\ find "." df = 11)
    /\ (os_path_exists w' (base ++ suffix) = false ->
        generate_singularity_recipe cfg ecs options w
        = (Ok tt,
           world_after_command w'
             ("sudo singularity build " ++ flag ++ (base ++ suffix) ++ " " ++ df)))
    /\ (os_path_exists w' (base ++ suffix) = true ->
        generate_singularity_recipe cfg ecs options w
        = (Raise (EasyBuildError
                    ("Image already exist at "
                       ++ OsPath.join wp (base ++ suffix)) []), w')).
Proof.
  intros Hw Hb Hfmt.
  exists (container_base (imagename cfg) df).
  split; [intros v Hv; now rewrite Hv |].
  split.
  { intros Hn. rewrite Hn.
    destruct (write_definition_file_ok _ _ _ _ _ _ _ Hw)
      as [bt [bl [spec [src [r [_ [_ [_ [_ [_ [Hr [Hdf _]]]]]]]]]]]].
    destruct (recipe_text_fields _ _ _ _ _ Hr) as [_ [_ [_ [_ [Hname _]]]]].
    pose proof (proj2 (proj2 (container_base_cases df)) _ _ _ _ _ Hr) as Hbase.
    subst df. rewrite Hbase, Hname. split; reflexivity. }
  unfold generate_singularity_recipe, bind. rewrite Hw, Hb.
  destruct (build_container_command (imagename cfg) df wp w')
    as [Hsq [Hext Hsb]].
  split.
  - intros Hfree.
    destruct Hfmt as [[Hf [-> ->]] | [[Hf [-> ->]] | [Hf [-> ->]]]];
      rewrite Hf.
    + rewrite (Hsq Hfree). unfold os_system, world_after_command.
      repeat f_equal.
    + rewrite (Hext Hfree). unfold os_system, world_after_command.
      repeat f_equal; str_norm.
    + rewrite append_nil_r in Hfree |- *. rewrite (Hsb Hfree).
      unfold os_system, world_after_command.
      repeat f_equal; str_norm.
  - intros Hex. unfold build_container.
    destruct Hfmt as [[Hf [-> ->]] | [[Hf [-> ->]] | [Hf [-> ->]]]];
      rewrite Hf; cbn [String.eqb Ascii.eqb Bool.eqb andb];
      try rewrite append_nil_r in *;
      now apply build_unless_exists_refuses.
Qed.

(** ** Derived names and module load lines *)

(** Joining two well-formed components puts one separator between
    them. *)
Lemma join_components (a b : string) :
  truthy a = true -> endswith "/" a = false -> startswith "/" b = false ->
  OsPath.join a b = a ++ "/" ++ b.
Proof.
  intros Ha He Hb. unfold OsPath.join. now rewrite Hb, Ha, He.
Qed.

(** C7, the claim as stated fails for a version that starts with a path
    separator: with no toolchain, the single load line is not
    <name>/<version><suffix>, because joining drops the name before an
    absolute second component. *)
Lemma C7_absolute_version_counterexample :
  let e := mkEasyConfig "bzip2" "/1.0.6" "" (mkToolchain "dummy" "dummy") [] in
  exists r,
    recipe_text "EasyBuildMNS" DOCKER (FromHub "ubuntu" None) e = Ok r
    /\ module_load_lines (environment_content r)
       <> ["module load " ++ name e ++ "/" ++ version e ++ versionsuffix e].
Proof.
  intros e. eexists. split; [vm_compute; reflexivity |].
  vm_compute. discriminate.
Qed.

(** C7 (amended): with a toolchain other than the sentinel "dummy", the
    easyconfig filename is
    <name>-<version>-<toolchainName>-<toolchainVersion><versionSuffix>.eb
    and the recipe filename is Singularity. followed by the same stem;
    after the module use line, the environment section has two load lines
    under HierarchicalMNS, for the path join of toolchain name and
    version and then for the path join of <name> and <version><suffix>,
    and under any other scheme one load line for the path join of <name>
    and <version>-<toolchainName>-<toolchainVersion><suffix>.  With the
    sentinel, the filenames are <name>-<version><versionSuffix>.eb and
    Singularity.<name>-<version><versionSuffix>, and the single load line
    is for the path join of <name> and <version><suffix> under every
    scheme.  The path join of a and b is a/b whenever a is not empty and
    does not end with '/', and b does not start with '/'. *)
Theorem C7_derived_names_and_load_lines scheme bt src e r :
  recipe_text scheme bt src e = Ok r ->
  let tc := toolchain e in
  let env_head :=
    LF ++ "%environment" ++ LF ++ "source /etc/profile" ++ LF
       ++ "module use " ++ modulepath_of scheme ++ LF in
  (tc_name tc <> "dummy" ->
   easyconfig r
   = name e ++ "-" ++ version e ++ "-" ++ tc_name tc ++ "-" ++ tc_version tc
            ++ versionsuffix e ++ ".eb"
   /\ def_file r
      = "Singularity." ++ name e ++ "-" ++ version e ++ "-" ++ tc_name tc
                       ++ "-" ++ tc_version tc ++ versionsuffix e
   /\ (scheme = "HierarchicalMNS" ->
       environment_content r
       = env_head
           ++ "module load " ++ OsPath.join (tc_name tc) (tc_version tc) ++ LF
           ++ "module load "
           ++ OsPath.join (name e) (version e ++ versionsuffix e) ++ LF)
   /\ (scheme <> "HierarchicalMNS" ->
       environment_content r
       = env_head
           ++ "module load "
           ++ OsPath.join (name e)
                (version e ++ "-" ++ tc_name tc ++ "-" ++ tc_version tc
                           ++ versionsuffix e)
           ++ LF))
  /\ (tc_name tc = "dummy" ->
      easyconfig r = name e ++ "-" ++ version e ++ versionsuffix e ++ ".eb"
      /\ def_file r = "Singularity." ++ name e ++ "-" ++ version e
                                     ++ versionsuffix e
      /\ environment_content r
         = env_head
             ++ "module load "
             ++ OsPath.join (name e) (version e ++ versionsuffix e) ++ LF)
  /\ (forall a b,
         truthy a = true -> endswith "/" a = false -> startswith "/" b = false ->
         OsPath.join a b = a ++ "/" ++ b).
Proof.
  intros Hr tc env_head.
  destruct (recipe_text_fields _ _ _ _ _ Hr)
    as [installs [_ [_ [Hec [Hdf [_ [_ [_ [Henv _]]]]]]]]].
  unfold name_stem in Hec, Hdf. unfold load_lines in Henv. fold tc in Hec, Hdf, Henv.
  split; [| split; [| exact join_components]].
  - intros Htc. apply String.eqb_neq in Htc.
    rewrite Htc in Hec, Hdf, Henv. cbn [negb] in Hec, Hdf, Henv.
    split; [rewrite Hec; str_norm |].
    split; [rewrite Hdf; str_norm |].
    split.
    + intros ->. rewrite Henv. subst env_head. cbn [String.eqb Ascii.eqb Bool.eqb andb].
      str_norm.
    + intros Hs. apply String.eqb_neq in Hs. rewrite Hs in Henv.
      rewrite Henv. subst env_head. str_norm.
  - intros Htc. rewrite Htc in Hec, Hdf, Henv.
    cbn [String.eqb Ascii.eqb Bool.eqb andb negb] in Hec, Hdf, Henv.
    split; [rewrite Hec; str_norm |].
    split; [rewrite Hdf; str_norm |].
    rewrite Henv. subst env_head. str_norm.
Qed.

(** ** The order of the sections *)

(** The document is the five sections one after the other, each starting
    with its header text. *)
Lemma content_five_blocks scheme bt src e r :
  recipe_text scheme bt src e = Ok r ->
  content r = bootstrap_content r ++ post_content r ++ runscript_content r
                                  ++ environment_content r ++ label_content r
  /\ (String.prefix "Bootstrap: " (bootstrap_content r) = true
      \/ String.prefix "BootStrap: " (bootstrap_content r) = true)
  /\ String.prefix (LF ++ "%post" ++ LF) (post_content r) = true
  /\ String.prefix ("%runscript" ++ LF) (runscript_content r) = true
  /\ String.prefix (LF ++ "%environment" ++ LF) (environment_content r) = true
  /\ label_content r = LF ++ "%labels " ++ LF.
Proof.
  intros Hr.
  destruct (recipe_text_fields _ _ _ _ _ Hr)
    as [installs [_ [Hb [_ [_ [_ [Hp [Hrun [Henv [Hl Hc]]]]]]]]]].
  split; [exact Hc |].
  split; [rewrite Hb; destruct src as [p|i [t|]]; [left | right | right];
          unfold bootstrap_section; cbv zeta; rewrite !append_assoc;
          apply prefix_append |].
  split; [rewrite Hp; apply prefix_append3 |].
  split; [rewrite Hrun; apply prefix_append2 |].
  split; [rewrite Henv; apply prefix_append3 |].
  exact Hl.
Qed.

(** C8: in every generated document the five sections are concatenated
    in the order Bootstrap, Post-install, Runscript, Environment, Labels,
    but the post-install section ends with the cleanup command without a
    line break, so the text of the Runscript header continues the line of
    the cleanup command instead of starting a line of its own. *)
Theorem C8_runscript_header_joins_cleanup_line scheme bt src e r :
  recipe_text scheme bt src e = Ok r ->
  content r = bootstrap_content r ++ post_content r ++ runscript_content r
                                  ++ environment_content r ++ label_content r
  /\ (exists body, post_content r = LF ++ "%post" ++ LF ++ body ++ cleanup_cmd)
  /\ (exists before after,
         content r = before ++ cleanup_cmd ++ "%runscript" ++ LF ++ after).
Proof.
  intros Hr.
  destruct (recipe_text_fields _ _ _ _ _ Hr)
    as [installs [_ [Hb [_ [_ [_ [Hp [Hrun [Henv [Hl Hc]]]]]]]]]].
  split; [exact Hc |].
  split.
  - exists (installs ++ "pip install -U easybuild " ++ LF
                     ++ "su - easybuild " ++ LF
                     ++ "eb " ++ ebfile r ++ eb_flags ++ scheme ++ LF
                     ++ "exit" ++ LF).
    rewrite Hp. str_norm.
  - rewrite Hc, Hp, Hrun.
    exists (bootstrap_content r ++ LF ++ "%post" ++ LF ++ installs
              ++ "pip install -U easybuild " ++ LF ++ "su - easybuild " ++ LF
              ++ "eb " ++ ebfile r ++ eb_flags ++ scheme ++ LF ++ "exit" ++ LF).
    eexists. str_norm.
Qed.

(* ================================================================== *)
(** * The scenarios, evaluated *)

(** The check with singularity 2.3 on the search path. *)
Lemma C1_version_not_checked_witness :
  check_singularity always_below cfg_ext3 [mkBuildSpec bzip2_ec] docker_ubuntu
                    example_world
  = generate_singularity_recipe cfg_ext3 [mkBuildSpec bzip2_ec] docker_ubuntu
      (world_after_version_query example_world "/usr/bin/singularity").
Proof.
  apply C1_version_not_checked; [reflexivity | discriminate].
Defined.

(** With singularity 2.3 installed and a conversion that finds every
    version too old, the check still passes and the image is built. *)
Example old_version_still_builds :
  let '(res, w) :=
    check_singularity always_below cfg_ext3 [mkBuildSpec bzip2_ec]
                      docker_ubuntu example_world in
  res = Ok tt
  /\ popen_calls w = ["singularity --version"]
  /\ system_calls w
     = ["sudo singularity build --writable bzip2-1.0.6.img Singularity.bzip2-1.0.6"].
Proof. vm_compute. repeat split. Qed.

(** A tar archive given as local image. *)
Lemma C2_bad_extension_witness :
  generate_singularity_recipe cfg_squashfs [mkBuildSpec bzip2_ec]
    (mkOptions (Some "localimage:/x.tar")) example_world
  = (Raise (NameError "EaasyBuildError"), example_world)
  /\ is_EasyBuildError (NameError "EaasyBuildError") = false.
Proof.
  apply (C2_bad_extension_raises_NameError cfg_squashfs [mkBuildSpec bzip2_ec]
           (mkOptions (Some "localimage:/x.tar")) example_world
           ["localimage"; "/x.tar"] (mkBuildSpec bzip2_ec));
    try reflexivity; vm_compute; discriminate.
Defined.

(** A local image that is not there is reported with its path. *)
Example missing_local_image :
  generate_singularity_recipe cfg_squashfs [mkBuildSpec bzip2_ec]
    (mkOptions (Some "localimage:/nonexistent.img")) example_world
  = (Raise (EasyBuildError
              "Singularity base image at specified path does not exist: %s"
              ["/nonexistent.img"]), example_world).
Proof. reflexivity. Qed.

(** The squashfs image of bzip2 is already in the recipe directory. *)
Lemma C3_existing_image_witness :
  exists w',
    generate_singularity_recipe cfg_squashfs [mkBuildSpec bzip2_ec]
                                docker_ubuntu example_world
    = (Raise (EasyBuildError
                ("Image already exist at "
                   ++ OsPath.join "recipes" "bzip2-1.0.6.simg") []), w')
    /\ system_calls w' = system_calls example_world.
Proof.
  eexists.
  apply (C3_existing_image_refused cfg_squashfs [mkBuildSpec bzip2_ec]
           docker_ubuntu example_world "recipes" "Singularity.bzip2-1.0.6").
  - vm_compute. reflexivity.
  - reflexivity.
  - left. split; reflexivity.
  - vm_compute. reflexivity.
Defined.

(** A bootstrap option with a single field. *)
Lemma C4_format_error_witness :
  check_bootstrap (Some "shub")
  = Raise (EasyBuildError bootstrap_format_error_msg [])
  /\ enumerates_accepted_forms
       (error_message (EasyBuildError bootstrap_format_error_msg [])) = true.
Proof.
  destruct (C4_check_bootstrap_resolution "shub") as [_ [_ [H _]]].
  apply H; [discriminate | left; reflexivity].
Defined.

(** The post-install section of the first scenario. *)
Lemma C5_post_section_witness :
  exists r,
    recipe_text "EasyBuildMNS" DOCKER (FromHub "ubuntu" (Some "16.04")) bzip2_ec
    = Ok r
    /\ exists installs,
      install_osdeps (osdependencies bzip2_ec) "" = Ok installs
      /\ post_content r
         = LF ++ "%post" ++ LF ++ installs
              ++ "pip install -U easybuild " ++ LF
              ++ "su - easybuild " ++ LF
              ++ "eb " ++ ebfile r ++ eb_flags ++ "EasyBuildMNS" ++ LF
              ++ "exit" ++ LF
              ++ cleanup_cmd
      /\ ebfile r = fst (OsPath.splitext (easyconfig r)) ++ ".eb"
      /\ (only_dots (basename (name_stem bzip2_ec)) = false ->
          ebfile r = easyconfig r)
      /\ (find "/" (name_stem bzip2_ec) = -1 -> ebfile r = easyconfig r).
Proof.
  eexists. split; [vm_compute; reflexivity |].
  apply (C5_post_section_order "EasyBuildMNS" DOCKER
           (FromHub "ubuntu" (Some "16.04")) bzip2_ec).
  vm_compute. reflexivity.
Defined.

(** The derived names and the load lines of the second scenario. *)
Lemma C7_scenario_B_witness :
  exists r,
    recipe_text "HierarchicalMNS" SHUB (FromHub "centos" None) R_ec = Ok r
    /\ easyconfig r = "R-3.3.1-intel-2017a.eb"
    /\ def_file r = "Singularity.R-3.3.1-intel-2017a"
    /\ module_load_lines (environment_content r)
       = ["module load intel/2017a"; "module load R/3.3.1"].
Proof.
  eexists. split; [vm_compute; reflexivity |].
  destruct (C7_derived_names_and_load_lines "HierarchicalMNS" SHUB
              (FromHub "centos" None) R_ec _ eq_refl) as [H _].
  destruct (H ltac:(discriminate)) as [He [Hd _]].
  split; [exact He | split; [exact Hd |]].
  vm_compute. reflexivity.
Defined.

(** The document of the first scenario. *)
Lemma C8_scenario_A_witness :
  exists r,
    recipe_text "EasyBuildMNS" DOCKER (FromHub "ubuntu" (Some "16.04")) bzip2_ec
    = Ok r
    /\ exists before after,
      content r = before ++ cleanup_cmd ++ "%runscript" ++ LF ++ after.
Proof.
  eexists. split; [vm_compute; reflexivity |].
  apply (C8_runscript_header_joins_cleanup_line "EasyBuildMNS" DOCKER
           (FromHub "ubuntu" (Some "16.04")) bzip2_ec).
  vm_compute. reflexivity.
Defined.

(** The image of bzip2 under a configured name. *)
Lemma C10_image_name_witness :
  exists w',
    generate_singularity_recipe cfg_named [mkBuildSpec bzip2_ec] docker_ubuntu
                                example_world
    = (Ok tt,
       world_after_command w'
         "sudo singularity build myimage.simg Singularity.bzip2-1.0.6").
Proof.
  destruct (write_definition_file cfg_named [mkBuildSpec bzip2_ec]
              docker_ubuntu example_world) as [res w1] eqn:Hw.
  pose proof Hw as Hw2. vm_compute in Hw2. injection Hw2 as Hres Hw1.
  subst res. exists w1.
  destruct (C10_image_name_in_build cfg_named [mkBuildSpec bzip2_ec]
              docker_ubuntu example_world "recipes" "Singularity.bzip2-1.0.6"
              w1 "" ".simg" Hw eq_refl
              (or_introl (conj eq_refl (conj eq_refl eq_refl))))
    as [base [Hv [_ [Hfree _]]]].
  rewrite (Hv "myimage" eq_refl) in Hfree. apply Hfree.
  rewrite <- Hw1. vm_compute. reflexivity.
Defined.

(** With the image name myimage, the squashfs image of bzip2 is built as
    myimage.simg. *)
Example named_image_is_built :
  system_calls
    (snd (generate_singularity_recipe cfg_named [mkBuildSpec bzip2_ec]
            docker_ubuntu example_world))
  = ["sudo singularity build myimage.simg Singularity.bzip2-1.0.6"].
Proof. reflexivity. Qed.

(** A package list that starts with a tuple of alternatives. *)
Lemma C9_alternatives_witness :
  exists r,
    recipe_text "EasyBuildMNS" DOCKER (FromHub "ubuntu" None) openmpi_ec = Ok r
    /\ post_content r
       = LF ++ "%post" ++ LF
            ++ install_lines ["libibverbs-dev"; "libibverbs-devel";
                              "rdma-core-devel"]
            ++ "pip install -U easybuild " ++ LF
            ++ "su - easybuild " ++ LF
            ++ "eb " ++ ebfile r ++ eb_flags ++ "EasyBuildMNS" ++ LF
            ++ "exit" ++ LF
            ++ cleanup_cmd
    /\ recipe_text "EasyBuildMNS" DOCKER (FromHub "ubuntu" None)
         (mkEasyConfig (name openmpi_ec) (version openmpi_ec)
                       (versionsuffix openmpi_ec) (toolchain openmpi_ec)
                       [OsTuple ["libibverbs-dev"; "libibverbs-devel";
                                 "rdma-core-devel"]])
       = Ok r.
Proof.
  apply (proj1 (C9_osdependencies_in_recipe "EasyBuildMNS" DOCKER
                  (FromHub "ubuntu" None) openmpi_ec)
               ["libibverbs-dev"; "libibverbs-devel"; "rdma-core-devel"]
               [OsStr "zlib-devel"]).
  reflexivity.
Defined.

(** The lines of that package list, as they are written. *)
Example alternatives_lines :
  match recipe_text "EasyBuildMNS" DOCKER (FromHub "ubuntu" None) openmpi_ec with
  | Ok r =>
      filter (String.prefix "yum install") (split "010" (post_content r))
      = ["yum install -y libibverbs-dev || true ";
         "yum install -y libibverbs-devel || true ";
         "yum install -y rdma-core-devel || true "]
  | Raise _ => False
  end.
Proof. vm_compute. reflexivity. Qed.

(** Scenario A: bzip2 1.0.6 without toolchain under the flat scheme. *)
Example scenario_A :
  exists r,
    recipe_text "EasyBuildMNS" DOCKER (FromHub "ubuntu" (Some "16.04")) bzip2_ec
    = Ok r
    /\ def_file r = "Singularity.bzip2-1.0.6"
    /\ module_load_lines (environment_content r) = ["module load bzip2/1.0.6"]
    /\ header_lines (content r) = ["%post"; "%environment"; "%labels "]
    /\ In (cleanup_cmd ++ "%runscript") (split "010" (content r))
    /\ hd "" (split "010" (content r)) = "BootStrap: docker".
Proof.
  eexists. split; [vm_compute; reflexivity |].
  vm_compute. repeat split. tauto.
Qed.

(** Scenario B: R 3.3.1 with intel 2017a under the hierarchical scheme. *)
Example scenario_B :
  exists r,
    recipe_text "HierarchicalMNS" SHUB (FromHub "centos" None) R_ec = Ok r
    /\ def_file r = "Singularity.R-3.3.1-intel-2017a"
    /\ module_load_lines (environment_content r)
       = ["module load intel/2017a"; "module load R/3.3.1"].
Proof.
  eexists. split; [vm_compute; reflexivity |].
  vm_compute. repeat split.
Qed.

(* ================================================================== *)
(** * Further properties *)

(** ** Deprecation of gompi toolchains *)

Section GompiFacts.
Import LooseVersion Gompi.

Lemma runs_head_class (c : ascii) (rest : string) :
  exists t more, runs (String c rest) = (classify c, String c t) :: more.
Proof.
  cbn [runs]. destruct (runs rest) as [|[k' t] more].
  - now exists EmptyString, [].
  - destruct (same_run (classify c) k'); eexists; eexists; reflexivity.
Qed.

Lemma classify_digit (c : ascii) : is_digit c = true -> classify c = Digits.
Proof. intros H. unfold classify. now rewrite H. Qed.

Lemma classify_not_digit (c : ascii) :
  is_digit c = false -> classify c <> Digits.
Proof.
  intros H. unfold classify. rewrite H.
  destruct (is_lower c); [discriminate |].
  destruct (Ascii.eqb c "."); discriminate.
Qed.

(** The first run of a string that starts with a digit is its digit
    prefix. *)
Lemma runs_digit_prefix (s : string) :
  re_match_leading_digit s = true ->
  exists more, runs s = (Digits, digit_prefix s) :: more.
Proof.
  induction s as [|c rest IH]; [discriminate |].
  cbn [re_match_leading_digit]. intros Hc.
  cbn [runs digit_prefix]. rewrite Hc, (classify_digit c Hc).
  destruct rest as [|c' rest'].
  - now exists [].
  - destruct (is_digit c') eqn:Hc'.
    + destruct (IH Hc') as [more Hm]. rewrite Hm. cbn [same_run].
      now exists more.
    + destruct (runs_head_class c' rest') as [t [more Hm]]. rewrite Hm.
      cbn [digit_prefix]. rewrite Hc'.
      pose proof (classify_not_digit c' Hc') as Hk.
      destruct (classify c'); try congruence; cbn [same_run];
        eexists; reflexivity.
Qed.

(** Replacing a character that is no digit by a text that starts with
    no digit changes neither the digit prefix nor whether there is
    one. *)
Lemma digit_prefix_replace (old d : ascii) (new' s : string) :
  is_digit old = false -> is_digit d = false ->
  digit_prefix (replace old (String d new') s) = digit_prefix s.
Proof.
  intros Hold Hd. induction s as [|c rest IH]; [reflexivity |].
  cbn [replace]. destruct (Ascii.eqb c old) eqn:Hc.
  - apply Ascii.eqb_eq in Hc. subst c.
    cbn [append digit_prefix]. now rewrite Hd, Hold.
  - cbn [digit_prefix]. now rewrite IH.
Qed.

Lemma leading_digit_replace (old d : ascii) (new' s : string) :
  is_digit old = false -> is_digit d = false ->
  re_match_leading_digit (replace old (String d new') s)
  = re_match_leading_digit s.
Proof.
  intros Hold Hd. destruct s as [|c rest]; [reflexivity |].
  cbn [replace]. destruct (Ascii.eqb c old) eqn:Hc.
  - apply Ascii.eqb_eq in Hc. subst c.
    cbn [append re_match_leading_digit]. now rewrite Hd, Hold.
  - reflexivity.
Qed.

(** A version that starts with a digit is below 2000 exactly when the
    number it starts with is, on either interpreter. *)
Lemma lt_2000_leading_number (py3 : bool) (v : string) :
  re_match_leading_digit v = true ->
  lt py3 v "2000" = Ok (leading_number v <? 2000).
Proof.
  intros Hv. unfold lt, parse.
  destruct (runs_digit_prefix v Hv) as [more Hm]. rewrite Hm.
  change (components (runs "2000")) with [CInt 2000].
  cbn [components cmp_list component_eqb cmp_component].
  fold (leading_number v).
  destruct (leading_number v =? 2000) eqn:He.
  - apply Z.eqb_eq in He. rewrite He.
    destruct (components more); reflexivity.
  - apply Z.eqb_neq in He.
    destruct (leading_number v ?= 2000) eqn:Hc.
    + apply Z.compare_eq in Hc. contradiction.
    + rewrite Z.compare_lt_iff in Hc. apply Z.ltb_lt in Hc. now rewrite Hc.
    + rewrite Z.compare_gt_iff in Hc.
      assert (Hf : (leading_number v <? 2000) = false) by (apply Z.ltb_ge; lia).
      now rewrite Hf.
Qed.

(** A gompi toolchain is deprecated exactly when its version starts with
    a digit and the number it starts with is below 2000; the check
    raises on no version string, on either interpreter. *)
Theorem X1_is_deprecated_leading_number (py3 : bool) (version : string) :
  is_deprecated py3 version
  = Ok (re_match_leading_digit version && (leading_number version <? 2000)).
Proof.
  unfold is_deprecated. cbv zeta.
  set (v := replace "b" ".07" (replace "a" ".01" version)).
  assert (Hlead : re_match_leading_digit v = re_match_leading_digit version).
  { unfold v. now rewrite !leading_digit_replace. }
  assert (Hnum : leading_number v = leading_number version).
  { unfold v, leading_number. now rewrite !digit_prefix_replace. }
  rewrite Hlead.
  destruct (re_match_leading_digit version) eqn:Hd; [| reflexivity].
  rewrite lt_2000_leading_number by (now rewrite Hlead).
  rewrite Hnum. now destruct (leading_number version <? 2000).
Qed.

(** The rewriting of the letters a and b before the comparison has no
    effect on the outcome: for a version that starts with a digit, the
    comparison of the version as it is gives the same answer, and raises
    no type error either. *)
Theorem X2_letter_rewriting_immaterial (py3 : bool) (version : string) :
  re_match_leading_digit version = true ->
  is_deprecated py3 version = lt py3 version "2000".
Proof.
  intros Hd. unfold is_deprecated. cbv zeta.
  set (v := replace "b" ".07" (replace "a" ".01" version)).
  assert (Hlead : re_match_leading_digit v = true).
  { unfold v. now rewrite !leading_digit_replace. }
  assert (Hnum : leading_number v = leading_number version).
  { unfold v, leading_number. now rewrite !digit_prefix_replace. }
  rewrite Hlead, !lt_2000_leading_number, Hnum by assumption.
  now destruct (leading_number version <? 2000).
Qed.

End GompiFacts.

(** ** Failures of the recipe generation *)

(** In this model, where writing the file cannot fail, a failure of the
    write phase is one of the validation errors, is not the refusal of an
    existing image, and leaves the world as it was. *)
Lemma write_definition_file_raise cfg ecs options w e w' :
  write_definition_file cfg ecs options w = (Raise e, w') ->
  w' = w /\ validation_error cfg e
  /\ forall path, e <> EasyBuildError ("Image already exist at " ++ path) [].
Proof.
  unfold write_definition_file, bind, gets, lift.
  destruct (_ && _) eqn:Hvalid.
  2:{ unfold raise. intros H; injection H as <- <-.
      split; [reflexivity | split; [constructor | discriminate]]. }
  unfold ret at 1.
  destruct (check_bootstrap _) as [[bt bl]|e0] eqn:Hcb.
  - destruct (first_spec ecs) as [spec|e1] eqn:Hfs.
    + pose proof (check_bootstrap_source_world bt bl w) as Hw.
      destruct (check_bootstrap_source bt bl w) as [[src|e2] w1] eqn:Hsrc;
        simpl in Hw; subst w1.
      * destruct (recipe_text _ _ _ _) as [r|e3] eqn:Hr.
        -- apply andb_true_iff in Hvalid. destruct Hvalid as [_ Hdir].
           unfold change_dir. rewrite Hdir. discriminate.
        -- intros H; injection H as <- <-.
           rewrite (recipe_text_raise _ _ _ _ _ Hr).
           split; [reflexivity | split; [constructor | discriminate]].
      * intros H; injection H as <- <-.
        unfold check_bootstrap_source, bind, gets, ret, raise in Hsrc.
        destruct (String.eqb bt LOCALIMAGE); [| discriminate].
        destruct (os_path_exists w (item bl 1)).
        -- destruct (_ || _); [discriminate |].
           injection Hsrc as <-.
           split; [reflexivity | split; [constructor | discriminate]].
        -- injection Hsrc as <-.
           split; [reflexivity | split; [constructor | discriminate]].
    + intros H; injection H as <- <-.
      destruct ecs; simpl in Hfs; [injection Hfs as <- | discriminate].
      split; [reflexivity | split; [constructor | discriminate]].
  - intros H; injection H as <- <-.
    unfold check_bootstrap in Hcb.
    destruct (singularity_bootstrap options) as [[|c sb]|].
    + injection Hcb as <-.
      split; [reflexivity | split; [constructor | discriminate]].
    + destruct (_ || _).
      * injection Hcb as <-.
        split; [reflexivity | split; [constructor | discriminate]].
      * destruct (negb _); [| discriminate]. injection Hcb as <-.
        split; [reflexivity | split; [apply err_bootstrap_type | discriminate]].
    + injection Hcb as <-.
      split; [reflexivity | split; [constructor | discriminate]].
Qed.

(** The outcome of the image build step: it raises the refusal of an
    existing image and leaves the world alone, or it succeeds after at
    most one shell command, which calls the builder through sudo. *)
Lemma build_container_outcome image_name image_format writepath df w res w' :
  build_container image_name image_format writepath df w = (res, w') ->
  (exists path, res = Raise (EasyBuildError ("Image already exist at " ++ path) [])
                /\ w' = w)
  \/ (res = Ok tt /\ w' = w)
  \/ (res = Ok tt
      /\ exists args,
        w' = world_after_command w
               ("sudo singularity build " ++ args ++ " " ++ df)).
Proof.
  assert (Hstep : forall container_name cmd,
             build_unless_exists writepath container_name cmd w = (res, w') ->
             (exists path,
                 res = Raise (EasyBuildError ("Image already exist at " ++ path) [])
                 /\ w' = w)
             \/ (res = Ok tt /\ w' = world_after_command w cmd)).
  { intros container_name cmd. unfold build_unless_exists, bind, gets, raise.
    destruct (os_path_exists w container_name).
    - intros H; injection H as <- <-. left. eexists. split; reflexivity.
    - unfold os_system. intros H; injection H as <- <-. right. split; reflexivity. }
  unfold build_container.
  destruct (String.eqb image_format "squashfs").
  { intros H. destruct (Hstep _ _ H) as [Hl | [Hr Hw]]; [now left |].
    right; right. split; [exact Hr |].
    exists (container_base image_name df ++ ".simg"). rewrite Hw.
    f_equal; try str_norm. }
  destruct (String.eqb image_format "ext3").
  { intros H. destruct (Hstep _ _ H) as [Hl | [Hr Hw]]; [now left |].
    right; right. split; [exact Hr |].
    exists ("--writable " ++ container_base image_name df ++ ".img"). rewrite Hw.
    f_equal; try str_norm. }
  destruct (String.eqb image_format "sandbox").
  { intros H. destruct (Hstep _ _ H) as [Hl | [Hr Hw]]; [now left |].
    right; right. split; [exact Hr |].
    exists ("--sandbox " ++ container_base image_name df). rewrite Hw.
    f_equal; try str_norm. }
  unfold ret. intros H; injection H as <- <-. right; left. split; reflexivity.
Qed.

(** The refusal of an existing image is none of the validation
    errors. *)
Lemma image_exists_not_validation cfg path :
  ~ validation_error cfg (EasyBuildError ("Image already exist at " ++ path) []).
Proof.
  intros H. inversion H.
Qed.

(** Validation comes before any effect: when
    [generate_singularity_recipe] fails with one of the validation
    errors (invalid recipe directory, unset or malformed bootstrap
    option, unknown bootstrap type, empty list of easyconfigs, local
    image missing or with a wrong extension, tuple among package names),
    the world is as it was before the call: no file was written, the
    working directory is unchanged, nothing was printed and no command
    was run. *)
Theorem X3_failure_leaves_no_trace cfg ecs options w e w' :
  generate_singularity_recipe cfg ecs options w = (Raise e, w') ->
  validation_error cfg e ->
  w' = w.
Proof.
  unfold generate_singularity_recipe, bind.
  destruct (write_definition_file cfg ecs options w)
    as [[[wp df]|e0] w1] eqn:Hw.
  - destruct (buildimage cfg); [| discriminate].
    intros H Hv. apply build_container_outcome in H.
    destruct H as [[path [Hres Hsame]] | [[Hres _] | [Hres _]]];
      try discriminate.
    injection Hres as ->. now apply image_exists_not_validation in Hv.
  - intros H _; injection H as <- <-.
    now destruct (write_definition_file_raise _ _ _ _ _ _ Hw).
Qed.

(** When the configured recipe directory is not an existing directory,
    the generation fails with the build error that names it, whatever
    the easyconfigs and the bootstrap option are, and changes nothing. *)
Theorem X5_invalid_directory_first cfg ecs options w :
  os_path_isdir w (singularity_path cfg) = false ->
  generate_singularity_recipe cfg ecs options w
  = (Raise (EasyBuildError
              ("Invalid path: " ++ singularity_path cfg
                 ++ " please specify a valid directory path") []), w).
Proof.
  intros Hdir.
  unfold generate_singularity_recipe, write_definition_file, bind, gets.
  rewrite Hdir, andb_false_r. reflexivity.
Qed.

(** Only the first easyconfig of the list is used: the entries after it
    have no effect on the outcome. *)
Theorem X6_only_first_easyconfig cfg spec rest options w :
  generate_singularity_recipe cfg (spec :: rest) options w
  = generate_singularity_recipe cfg [spec] options w.
Proof.
  unfold generate_singularity_recipe, write_definition_file, bind, gets, lift.
  destruct (_ && _); [| reflexivity].
  unfold ret at 1 3.
  destruct (check_bootstrap _) as [[bt bl]|e0]; reflexivity.
Qed.

(** When no image build is requested, or the image format is none of
    squashfs, ext3 and sandbox, a run that wrote the definition file
    succeeds without running any shell command: an unknown format is not
    an error. *)
Theorem X7_no_build cfg ecs options w wp df w' :
  write_definition_file cfg ecs options w = (Ok (wp, df), w') ->
  buildimage cfg = false
  \/ (imageformat cfg <> "squashfs" /\ imageformat cfg <> "ext3"
      /\ imageformat cfg <> "sandbox") ->
  generate_singularity_recipe cfg ecs options w = (Ok tt, w')
  /\ system_calls w' = system_calls w.
Proof.
  intros Hw Hno.
  split; [| exact (proj1 (write_definition_file_no_command _ _ _ _ _ _ Hw))].
  unfold generate_singularity_recipe, bind. rewrite Hw.
  destruct Hno as [Hb | [Hs [He Hx]]].
  - now rewrite Hb.
  - destruct (buildimage cfg); [| reflexivity].
    unfold build_container.
    apply String.eqb_neq in Hs, He, Hx. now rewrite Hs, He, Hx.
Qed.

(** When an image build is requested and the final image path is free,
    exactly one shell command is run after the definition file was
    written: sudo singularity build, with no flag for squashfs, with
    --writable for ext3 and with --sandbox for sandbox, followed by the
    image path and the name of the definition file. *)
Theorem X8_build_command cfg ecs options w wp df w' final flag :
  write_definition_file cfg ecs options w = (Ok (wp, df), w') ->
  buildimage cfg = true ->
  (imageformat cfg = "squashfs" /\ flag = ""
   /\ final = container_base (imagename cfg) df ++ ".simg")
  \/ (imageformat cfg = "ext3" /\ flag = "--writable "
      /\ final = container_base (imagename cfg) df ++ ".img")
  \/ (imageformat cfg = "sandbox" /\ flag = "--sandbox "
      /\ final = container_base (imagename cfg) df) ->
  os_path_exists w' final = false ->
  generate_singularity_recipe cfg ecs options w
  = (Ok tt,
     world_after_command w'
       ("sudo singularity build " ++ flag ++ final ++ " " ++ df))
  /\ system_calls (world_after_command w'
                     ("sudo singularity build " ++ flag ++ final ++ " " ++ df))
     = app (system_calls w)
           ["sudo singularity build " ++ flag ++ final ++ " " ++ df].
Proof.
  intros Hw Hb Hfmt Hfree.
  split.
  - unfold generate_singularity_recipe, bind. rewrite Hw, Hb.
    destruct (build_container_command (imagename cfg) df wp w')
      as [Hsq [Hext Hsb]].
    destruct Hfmt as [[Hf [-> ->]] | [[Hf [-> ->]] | [Hf [-> ->]]]];
      rewrite Hf.
    + rewrite (Hsq Hfree). unfold os_system, world_after_command.
      repeat f_equal.
    + rewrite (Hext Hfree). unfold os_system, world_after_command.
      repeat f_equal; str_norm.
    + rewrite (Hsb Hfree). unfold os_system, world_after_command.
      repeat f_equal; str_norm.
  - cbn [world_after_command system_calls].
    now rewrite (proj1 (write_definition_file_no_command _ _ _ _ _ _ Hw)).
Qed.

(** Whatever the inputs and the outcome, the generation opens no process
    and runs at most one shell command; when it runs one, the definition
    file was written, the run succeeds, and the command is a call of sudo
    singularity build that ends with the name of that definition file. *)
Theorem X9_at_most_one_command cfg ecs options w res w' :
  generate_singularity_recipe cfg ecs options w = (res, w') ->
  popen_calls w' = popen_calls w
  /\ (system_calls w' = system_calls w
      \/ exists args writepath r,
          write_definition_file cfg ecs options w
          = (Ok (writepath, def_file r), world_after_write w writepath r)
          /\ system_calls w'
             = app (system_calls w)
                   ["sudo singularity build " ++ args ++ " " ++ def_file r]
          /\ res = Ok tt).
Proof.
  unfold generate_singularity_recipe, bind.
  destruct (write_definition_file cfg ecs options w) as [r0 w1] eqn:Hw.
  destruct (write_definition_file_no_command _ _ _ _ _ _ Hw) as [Hsys Hpop].
  destruct r0 as [[wp df]|e0].
  - destruct (write_definition_file_ok _ _ _ _ _ _ _ Hw)
      as [bt [bl [spec [src [r [_ [_ [_ [_ [_ [_ [Hdf Hw1]]]]]]]]]]]].
    destruct (buildimage cfg).
    + intros H. apply build_container_outcome in H.
      destruct H as [[path [_ ->]] | [[_ ->] | [Hres [args ->]]]].
      * split; [exact Hpop | now left].
      * split; [exact Hpop | now left].
      * cbn [world_after_command popen_calls system_calls].
        split; [exact Hpop |]. right. exists args, wp, r.
        subst df w1. rewrite <- Hsys. repeat split. exact Hres.
    + unfold ret. intros H; injection H as <- <-.
      split; [exact Hpop | now left].
  - intros H; injection H as <- <-. split; [exact Hpop | now left].
Qed.

(** ** Successful runs *)

(** A successful run wrote the definition file, and then ran at most one
    shell command. *)
Lemma generate_ok cfg ecs options w w' :
  generate_singularity_recipe cfg ecs options w = (Ok tt, w') ->
  exists wp df w1,
    write_definition_file cfg ecs options w = (Ok (wp, df), w1)
    /\ (w' = w1 \/ exists cmd, w' = world_after_command w1 cmd).
Proof.
  unfold generate_singularity_recipe, bind.
  destruct (write_definition_file cfg ecs options w)
    as [[[wp df]|e0] w1] eqn:Hw; [| discriminate].
  intros H. exists wp, df, w1. split; [reflexivity |].
  destruct (buildimage cfg).
  - apply build_container_outcome in H.
    destruct H as [[path [Hres _]] | [[_ ->] | [_ [args ->]]]];
      [discriminate | now left | right; eexists; reflexivity].
  - unfold ret in H. injection H as <-. now left.
Qed.

(** When no image build is requested, a successful run has passed every
    check on the bootstrap option and its source, has composed the text
    from them, from the first easyconfig and from the module naming
    scheme, has left that text in the definition file, which is found
    under its own name from the working directory the run ends in, and
    has printed where the file was written. *)
Theorem X10_definition_file_written cfg ecs options w w' :
  buildimage cfg = false ->
  generate_singularity_recipe cfg ecs options w = (Ok tt, w') ->
  exists bt bl spec src r,
    check_bootstrap (singularity_bootstrap options) = Ok (bt, bl)
    /\ first_spec ecs = Ok spec
    /\ check_bootstrap_source bt bl w = (Ok src, w)
    /\ recipe_text (get_module_naming_scheme cfg) bt src (ec spec) = Ok r
    /\ read_file w' (def_file r) = Some (content r)
    /\ messages w'
       = app (messages w)
             [percent "Writing Singularity Definition File: %s"
                      (OsPath.join (singularity_path cfg) (def_file r))].
Proof.
  intros Hb H.
  unfold generate_singularity_recipe, bind in H. rewrite Hb in H.
  destruct (write_definition_file cfg ecs options w)
    as [[[wp df]|e0] w1] eqn:Hw; [| discriminate].
  unfold ret in H. injection H as <-.
  destruct (write_definition_file_ok _ _ _ _ _ _ _ Hw)
    as [bt [bl [spec [src [r [Hwp [_ [Hcb [Hfs [Hsrc [Hr [Hdf Hw1]]]]]]]]]]]].
  exists bt, bl, spec, src, r. subst w1 wp.
  split; [exact Hcb | split; [exact Hfs | split; [exact Hsrc |]]].
  split; [exact Hr | split; [apply written_file_holds_content | reflexivity]].
Qed.

(** ** The fields of the bootstrap option *)

Lemma join_split (sep : ascii) (s : string) :
  join (String sep "") (split sep s) = s.
Proof.
  unfold join. induction s as [|c s IH]; [reflexivity |].
  cbn [split]. pose proof (split_not_nil sep s) as Hne.
  destruct (Ascii.eqb c sep) eqn:Hc.
  - apply Ascii.eqb_eq in Hc. subst c.
    destruct (split sep s) as [|f fs]; [congruence |].
    change (String.concat (String sep "") ("" :: f :: fs))
      with (String sep (String.concat (String sep "") (f :: fs))).
    now rewrite IH.
  - destruct (split sep s) as [|f fs]; [congruence |].
    rewrite <- IH. destruct fs; reflexivity.
Qed.

Lemma split_fields_without_sep (sep : ascii) (s : string) :
  Forall (fun f => forall i, find_from sep f i = -1) (split sep s).
Proof.
  induction s as [|c s IH]; [repeat constructor |].
  cbn [split]. destruct (Ascii.eqb c sep) eqn:Hc.
  - constructor; [reflexivity | exact IH].
  - destruct (split sep s) as [|f fs]; [repeat constructor; simpl; now rewrite Hc |].
    inversion IH as [|? ? Hf Hfs]; subst.
    constructor; [| exact Hfs].
    intros i. cbn [find_from]. rewrite Hc. apply Hf.
Qed.

(** The fields returned by [check_bootstrap] are the option cut at its
    colons: put together again with colons they give back the option, no
    field holds a colon, and the returned type is the first field. *)
Theorem X11_bootstrap_fields_round_trip option bootstrap_type bootstrap_specs :
  check_bootstrap option = Ok (bootstrap_type, bootstrap_specs) ->
  option = Some (join ":" bootstrap_specs)
  /\ Forall (fun f => find ":" f = -1) bootstrap_specs
  /\ bootstrap_type = item bootstrap_specs 0.
Proof.
  unfold check_bootstrap.
  destruct option as [[|c sb]|]; try discriminate.
  cbv zeta. remember (split ":" (String c sb)) as fields eqn:Hfields.
  destruct (_ || _); [discriminate |].
  destruct (negb _); [discriminate |].
  intros H; injection H as <- <-.
  split; [now rewrite Hfields, (join_split ":") |].
  split.
  - pose proof (split_fields_without_sep ":" (String c sb)) as Hf.
    rewrite <- Hfields in Hf.
    eapply Forall_impl; [| exact Hf]. intros f Hi. apply Hi.
  - unfold item. now destruct fields.
Qed.

(** ** Local images *)

(** The two parts of a split path put together give the path. *)
Lemma splitext_concat (p : string) :
  fst (OsPath.splitext p) ++ snd (OsPath.splitext p) = p.
Proof.
  unfold OsPath.splitext. cbv zeta.
  destruct (rfind "/" p <? rfind "." p); [| apply append_nil_r].
  generalize (Z.to_nat (rfind "." p - (rfind "/" p + 1))).
  generalize (rfind "/" p + 1).
  intros i n. revert i.
  induction n as [|n IH]; intros i; cbn [OsPath.skip_leading_dots].
  - apply append_nil_r.
  - destruct (negb _); [| apply IH].
    cbn [fst snd]. unfold slice_to, slice_from. apply take_drop.
Qed.

(** When the generation succeeds with a local image as bootstrap, the
    image path exists and ends with .img or .simg, and it is the second
    field of the option whatever follows it. *)
Theorem X12_accepted_local_image cfg ecs options w w' bl :
  generate_singularity_recipe cfg ecs options w = (Ok tt, w') ->
  check_bootstrap (singularity_bootstrap options) = Ok (LOCALIMAGE, bl) ->
  os_path_exists w (item bl 1) = true
  /\ exists stem,
      item bl 1 = stem ++ ".img" \/ item bl 1 = stem ++ ".simg".
Proof.
  intros H Hcb. destruct (generate_ok _ _ _ _ _ H) as [wp [df [w1 [Hw _]]]].
  destruct (write_definition_file_ok _ _ _ _ _ _ _ Hw)
    as [bt [bl' [spec [src [r [_ [_ [Hcb' [_ [Hsrc _]]]]]]]]]].
  rewrite Hcb in Hcb'. injection Hcb' as <- <-.
  unfold check_bootstrap_source, bind, gets, ret, raise in Hsrc.
  rewrite String.eqb_refl in Hsrc.
  destruct (os_path_exists w (item bl 1)); [| discriminate].
  split; [reflexivity |].
  pose proof (splitext_concat (item bl 1)) as Hcat.
  exists (fst (OsPath.splitext (item bl 1))).
  destruct (String.eqb (snd (OsPath.splitext (item bl 1))) ".img") eqn:Himg.
  - apply String.eqb_eq in Himg. rewrite Himg in Hcat. now left.
  - destruct (String.eqb (snd (OsPath.splitext (item bl 1))) ".simg") eqn:Hs;
      [| discriminate].
    apply String.eqb_eq in Hs. rewrite Hs in Hcat. now right.
Qed.

(** ** The definition file and the image path *)

(** An image name that is the name of the definition file cannot be
    built as a sandbox: the definition file written just before is found
    in its place, and the build is refused. *)
Theorem X14_image_named_like_recipe cfg ecs options w wp df w' :
  write_definition_file cfg ecs options w = (Ok (wp, df), w') ->
  buildimage cfg = true ->
  imageformat cfg = "sandbox" ->
  imagename cfg = Some df ->
  generate_singularity_recipe cfg ecs options w
  = (Raise (EasyBuildError
              ("Image already exist at " ++ OsPath.join wp df) []), w').
Proof.
  intros Hw Hb Hf Hn.
  destruct (write_definition_file_ok _ _ _ _ _ _ _ Hw)
    as [bt [bl [spec [src [r [_ [_ [_ [_ [_ [Hr [Hdf Hw1]]]]]]]]]]]].
  destruct (recipe_text_fields _ _ _ _ _ Hr) as [_ [_ [_ [_ [Hname _]]]]].
  unfold generate_singularity_recipe, bind. rewrite Hw, Hb, Hf, Hn.
  unfold build_container. cbn [String.eqb Ascii.eqb Bool.eqb andb container_base].
  apply build_unless_exists_refuses.
  subst w' df. unfold os_path_exists, world_after_write, abspath.
  cbn [cwd dirs files map fst mem existsb].
  rewrite String.eqb_refl. cbn [orb]. rewrite orb_true_r, andb_true_r, Hname.
  reflexivity.
Qed.

(** ** check_singularity without the tool *)

(** When singularity is not on the search path, a requested image build
    is refused before anything is generated or printed, and without an
    image build the recipe is generated as if the check was not there. *)
Theorem X15_tool_absent float_lt cfg ecs options w :
  which_singularity w = None ->
  check_singularity float_lt cfg ecs options w
  = if buildimage cfg
    then (Raise (EasyBuildError "Singularity not found in your system" []), w)
    else generate_singularity_recipe cfg ecs options w.
Proof.
  intros Hw. unfold check_singularity, which, bind at 1, gets. rewrite Hw.
  destruct (buildimage cfg); reflexivity.
Qed.

(* ================================================================== *)
(** * The further properties, evaluated *)

(** The version 2016a of gompi. *)
Lemma X2_letter_rewriting_witness :
  Gompi.is_deprecated true "2016a" = LooseVersion.lt true "2016a" "2000".
Proof. apply X2_letter_rewriting_immaterial. reflexivity. Defined.

(** The versions the source comments on. *)
Example gompi_versions :
  map (Gompi.is_deprecated true) ["1.4.10"; "2016a"; "2018b"; "system"; "2000"]
  = [Ok true; Ok false; Ok false; Ok false; Ok false].
Proof. reflexivity. Qed.

(** A local image that is not there. *)
Lemma X3_no_trace_witness :
  snd (generate_singularity_recipe cfg_squashfs [mkBuildSpec bzip2_ec]
         (mkOptions (Some "localimage:/nonexistent.img")) example_world)
  = example_world.
Proof.
  apply (X3_failure_leaves_no_trace cfg_squashfs [mkBuildSpec bzip2_ec]
           (mkOptions (Some "localimage:/nonexistent.img")) example_world
           (EasyBuildError
              "Singularity base image at specified path does not exist: %s"
              ["/nonexistent.img"])).
  - reflexivity.
  - constructor.
Defined.

(** A recipe directory that is not there, and no easyconfig either. *)
Lemma X5_invalid_directory_witness :
  generate_singularity_recipe cfg_bad_dir [] (mkOptions None) example_world
  = (Raise (EasyBuildError
              "Invalid path: nowhere please specify a valid directory path" []),
     example_world).
Proof.
  apply (X5_invalid_directory_first cfg_bad_dir [] (mkOptions None)
           example_world).
  reflexivity.
Defined.

(** The image format tar. *)
Lemma X7_unknown_format_witness :
  exists w',
    generate_singularity_recipe cfg_unknown_format [mkBuildSpec bzip2_ec]
                                docker_ubuntu example_world = (Ok tt, w')
    /\ system_calls w' = system_calls example_world.
Proof.
  eexists.
  apply (X7_no_build cfg_unknown_format [mkBuildSpec bzip2_ec] docker_ubuntu
           example_world "recipes" "Singularity.bzip2-1.0.6").
  - vm_compute. reflexivity.
  - right. repeat split; discriminate.
Defined.

(** An ext3 image of bzip2. *)
Lemma X8_build_command_witness :
  exists w',
    generate_singularity_recipe cfg_ext3 [mkBuildSpec bzip2_ec] docker_ubuntu
                                example_world
    = (Ok tt,
       world_after_command w'
         ("sudo singularity build " ++ "--writable " ++ "bzip2-1.0.6.img"
            ++ " " ++ "Singularity.bzip2-1.0.6"))
    /\ system_calls
         (world_after_command w'
            ("sudo singularity build " ++ "--writable " ++ "bzip2-1.0.6.img"
               ++ " " ++ "Singularity.bzip2-1.0.6"))
       = app (system_calls example_world)
             ["sudo singularity build " ++ "--writable " ++ "bzip2-1.0.6.img"
                ++ " " ++ "Singularity.bzip2-1.0.6"].
Proof.
  eexists.
  apply (X8_build_command cfg_ext3 [mkBuildSpec bzip2_ec] docker_ubuntu
           example_world "recipes" "Singularity.bzip2-1.0.6").
  - vm_compute. reflexivity.
  - reflexivity.
  - right; left. repeat split; reflexivity.
  - vm_compute. reflexivity.
Defined.

(** The same run, seen through its commands. *)
Lemma X9_at_most_one_command_witness :
  exists res w',
    generate_singularity_recipe cfg_ext3 [mkBuildSpec bzip2_ec] docker_ubuntu
                                example_world = (res, w')
    /\ popen_calls w' = popen_calls example_world
    /\ (system_calls w' = system_calls example_world
        \/ exists args writepath r,
            write_definition_file cfg_ext3 [mkBuildSpec bzip2_ec] docker_ubuntu
                                  example_world
            = (Ok (writepath, def_file r),
               world_after_write example_world writepath r)
            /\ system_calls w'
               = app (system_calls example_world)
                     ["sudo singularity build " ++ args ++ " " ++ def_file r]
            /\ res = Ok tt).
Proof.
  eexists. eexists. split; [vm_compute; reflexivity |].
  apply (X9_at_most_one_command cfg_ext3 [mkBuildSpec bzip2_ec] docker_ubuntu
           example_world).
  vm_compute. reflexivity.
Defined.

(** The recipe of R, from a local image. *)
Lemma X10_definition_file_witness :
  exists w' bt bl spec src r,
    generate_singularity_recipe cfg_recipe_only [mkBuildSpec R_ec] local_centos
                                local_image_world = (Ok tt, w')
    /\ check_bootstrap (singularity_bootstrap local_centos) = Ok (bt, bl)
    /\ first_spec [mkBuildSpec R_ec] = Ok spec
    /\ check_bootstrap_source bt bl local_image_world
       = (Ok src, local_image_world)
    /\ recipe_text (get_module_naming_scheme cfg_recipe_only) bt src (ec spec)
       = Ok r
    /\ read_file w' (def_file r) = Some (content r)
    /\ messages w'
       = app (messages local_image_world)
             [percent "Writing Singularity Definition File: %s"
                      (OsPath.join (singularity_path cfg_recipe_only)
                                   (def_file r))].
Proof.
  destruct (generate_singularity_recipe cfg_recipe_only [mkBuildSpec R_ec]
              local_centos local_image_world) as [res w'] eqn:Hg.
  assert (Hres : res = Ok tt) by (vm_compute in Hg; congruence).
  subst res.
  destruct (X10_definition_file_written cfg_recipe_only [mkBuildSpec R_ec]
              local_centos local_image_world w' eq_refl Hg)
    as [bt [bl [spec [src [r H]]]]].
  exists w', bt, bl, spec, src, r. split; [reflexivity | exact H].
Defined.

(** The definition file of R after that run starts with the bootstrap
    from the local image. *)
Example recipe_of_R_written :
  let w' := snd (generate_singularity_recipe cfg_recipe_only [mkBuildSpec R_ec]
                   local_centos local_image_world) in
  option_map (fun txt => hd "" (split "010" txt))
             (read_file w' "Singularity.R-3.3.1-intel-2017a")
  = Some "Bootstrap: localimage"
  /\ messages w'
     = ["Writing Singularity Definition File: recipes/Singularity.R-3.3.1-intel-2017a"].
Proof. vm_compute. split; reflexivity. Qed.

(** A docker image with a tag. *)
Lemma X11_round_trip_witness :
  Some "docker:ubuntu:16.04" = Some (join ":" ["docker"; "ubuntu"; "16.04"])
  /\ Forall (fun f => find ":" f = -1) ["docker"; "ubuntu"; "16.04"]
  /\ "docker" = item ["docker"; "ubuntu"; "16.04"] 0.
Proof.
  apply (X11_bootstrap_fields_round_trip (Some "docker:ubuntu:16.04")).
  reflexivity.
Defined.

(** The base image at /images/centos.simg. *)
Lemma X12_accepted_local_image_witness :
  os_path_exists local_image_world
                 (item ["localimage"; "/images/centos.simg"; "ignored"] 1) = true
  /\ exists stem,
      item ["localimage"; "/images/centos.simg"; "ignored"] 1 = stem ++ ".img"
      \/ item ["localimage"; "/images/centos.simg"; "ignored"] 1
         = stem ++ ".simg".
Proof.
  eapply (X12_accepted_local_image cfg_recipe_only [mkBuildSpec R_ec]
            local_centos local_image_world).
  - vm_compute. reflexivity.
  - reflexivity.
Defined.

(** A sandbox named Singularity.bzip2-1.0.6. *)
Lemma X14_image_named_like_recipe_witness :
  exists w',
    generate_singularity_recipe cfg_sandbox_named [mkBuildSpec bzip2_ec]
                                docker_ubuntu example_world
    = (Raise (EasyBuildError
                ("Image already exist at "
                   ++ OsPath.join "recipes" "Singularity.bzip2-1.0.6") []), w').
Proof.
  eexists.
  apply (X14_image_named_like_recipe cfg_sandbox_named [mkBuildSpec bzip2_ec]
           docker_ubuntu example_world).
  - vm_compute. reflexivity.
  - reflexivity.
  - reflexivity.
  - reflexivity.
Defined.

(** A host without singularity, and no image build asked for. *)
Lemma X15_tool_absent_witness :
  check_singularity always_below cfg_recipe_only [mkBuildSpec R_ec]
                    local_centos local_image_world
  = generate_singularity_recipe cfg_recipe_only [mkBuildSpec R_ec]
                                local_centos local_image_world.
Proof.
  apply (X15_tool_absent always_below cfg_recipe_only [mkBuildSpec R_ec]
           local_centos local_image_world).
  reflexivity.
Defined.
